(** * PowerPoint content processor: slide filter, classifier, router and merger

    A shallow embedding of [samples/medium-complexity.py] (class
    [PowerPointProcessor]) together with the properties its design document
    states about it.

    Conventions of the embedding.
    - A Python [str] is a [string]; a character is a code point below 256.
    - A Python [int] slide index is a [Z].
    - Code that can raise lives in the error monad [exc]; a [try/except]
      block is a case analysis on the outcome of its body.
    - A python-pptx shape is the record of what the code observes of it.
    - Collaborators outside the class (the presentation parser, the slide
      exporter, the vision service, the file system, the clock) are the
      fields of an environment record [Env]. *)

From Stdlib Require Import List String Ascii ZArith Bool Lia Permutation Sorted.
From Stdlib Require Import DecimalString.
Import ListNotations.
Local Open Scope string_scope.
Local Open Scope Z_scope.

(** ** Exceptions *)

Record exn := mkExn { exn_type : string; exn_msg : string }.

Inductive exc (A : Type) : Type :=
| Ok (a : A)
| Raise (e : exn).
Arguments Ok {A} a.
Arguments Raise {A} e.

Definition bind {A B} (m : exc A) (k : A -> exc B) : exc B :=
  match m with
  | Ok a => k a
  | Raise e => Raise e
  end.

Definition try_except {A} (body : exc A) (handler : exn -> exc A) : exc A :=
  match body with
  | Ok a => Ok a
  | Raise e => handler e
  end.

Notation "x <- m ;; k" := (bind m (fun x => k))
  (at level 61, m at next level, right associativity).

(** ** Python strings *)

Definition nl : string := String "010"%char EmptyString.

Definition code (c : ascii) : Z := Z.of_N (N_of_ascii c).

(** [str.isspace] on one character, for code points below 256. *)
Definition is_space (c : ascii) : bool :=
  let n := code c in
  ((9 <=? n) && (n <=? 13)) || ((28 <=? n) && (n <=? 32))
  || (n =? 133) || (n =? 160).

(** [str.lower] on one character, for code points below 256. *)
Definition lower_char (c : ascii) : ascii :=
  let n := code c in
  if ((65 <=? n) && (n <=? 90))
     || ((192 <=? n) && (n <=? 222) && negb (n =? 215))
  then ascii_of_N (Z.to_N (n + 32)) else c.

Fixpoint lower (s : string) : string :=
  match s with
  | EmptyString => EmptyString
  | String c s' => String (lower_char c) (lower s')
  end.

Definition is_empty (s : string) : bool :=
  match s with EmptyString => true | _ => false end.

(** Truth value of a string: non-empty. *)
Definition truthy (s : string) : bool := negb (is_empty s).

Fixpoint lstrip (s : string) : string :=
  match s with
  | EmptyString => EmptyString
  | String c s' => if is_space c then lstrip s' else s
  end.

Fixpoint rstrip (s : string) : string :=
  match s with
  | EmptyString => EmptyString
  | String c s' =>
      let r := rstrip s' in
      if is_space c && is_empty r then EmptyString else String c r
  end.

Definition strip (s : string) : string := rstrip (lstrip s).

Fixpoint startswith (p s : string) : bool :=
  match p, s with
  | EmptyString, _ => true
  | String a p', String b s' => Ascii.eqb a b && startswith p' s'
  | String _ _, EmptyString => false
  end.

(** [pat in s]. *)
Fixpoint contains (pat s : string) : bool :=
  startswith pat s ||
  match s with
  | EmptyString => false
  | String _ s' => contains pat s'
  end.

Definition len (s : string) : Z := Z.of_nat (String.length s).

(** [s[:n]] for [n >= 0]. *)
Fixpoint take (n : nat) (s : string) : string :=
  match n, s with
  | O, _ => EmptyString
  | S n', String c s' => String c (take n' s')
  | S _, EmptyString => EmptyString
  end.

(** [sep.join(parts)]. *)
Fixpoint join (sep : string) (parts : list string) : string :=
  match parts with
  | [] => EmptyString
  | [p] => p
  | p :: rest => p ++ sep ++ join sep rest
  end.

(** [s.split(sep)] for a non-empty separator: a left-to-right scan for
    non-overlapping occurrences.  [skip] counts the characters of an
    occurrence still to be dropped, [cur] is the piece under construction,
    reversed. *)
Fixpoint rev_string (acc s : string) : string :=
  match s with
  | EmptyString => acc
  | String c s' => rev_string (String c acc) s'
  end.

Fixpoint split_aux (sep : string) (skip : nat) (cur : string) (s : string)
  : list string :=
  match s with
  | EmptyString => [rev_string EmptyString cur]
  | String c s' =>
      match skip with
      | S k => split_aux sep k cur s'
      | O =>
          if startswith sep s
          then rev_string EmptyString cur
               :: split_aux sep (String.length sep - 1) EmptyString s'
          else split_aux sep O (String c cur) s'
      end
  end.

Definition split (sep s : string) : list string :=
  split_aux sep O EmptyString s.

(** [re.sub('[...]+', '', s)]: delete every character of the class. *)
Fixpoint remove_chars (cls : ascii -> bool) (s : string) : string :=
  match s with
  | EmptyString => EmptyString
  | String c s' =>
      if cls c then remove_chars cls s' else String c (remove_chars cls s')
  end.

(** [str(n)] for an integer. *)
Definition str_of_Z (n : Z) : string := NilZero.string_of_int (Z.to_int n).

(** [l[i]] for a list and a possibly negative index. *)
Definition IndexError (msg : string) : exn := mkExn "IndexError" msg.

Definition py_index {A} (msg : string) (l : list A) (i : Z) : exc A :=
  let n := Z.of_nat (List.length l) in
  let j := if i <? 0 then n + i else i in
  if (0 <=? j) && (j <? n) then
    match nth_error l (Z.to_nat j) with
    | Some a => Ok a
    | None => Raise (IndexError msg)
    end
  else Raise (IndexError msg).

(** ** Data model: what the code observes of a presentation *)

(** A python-pptx shape, as far as the processor looks at it.
    - [name]: [getattr(shape, 'name', '')].
    - [shape_type]: the [MSO_SHAPE_TYPE] code; python-pptx raises
      [NotImplementedError] on a shape it does not recognise.
    - [text]: [None] when the shape has no [text] attribute (tables,
      pictures, connectors, groups).
    - [placeholder_format]: [true] when the attribute is present and not
      [None].
    - [shapes]: [Some] of the sub-shapes' texts when the shape has a
      [shapes] attribute (a group).
    - [table]: the cell texts of [shape.table], row by row. *)
Record Shape := mkShape {
  name : string;
  shape_type : exc Z;
  text : option string;
  placeholder_format : bool;
  shapes : option (list (option string));
  table : list (list string)
}.

Definition Slide := list Shape.

Definition AUTO_SHAPE : Z := 1.
Definition LINE : Z := 9.
Definition PICTURE : Z := 13.
Definition TEXT_BOX : Z := 17.
Definition TABLE : Z := 19.

(** The collaborators of the processor. *)
Record Env := mkEnv {
  (** [Presentation(str(file_path))]: the slides, or the parser's error. *)
  Presentation : exc (list Slide);
  (** [file_path.name] and [file_path.stem]. *)
  file_name : string;
  file_stem : string;
  (** [self.slide_exporter.export_slide_as_image(path, idx, dir, stamp)],
      with everything that precedes it in the same [try] block; the empty
      string stands for [None]. *)
  export_slide_as_image : Z -> exc string;
  (** [Path(image_path).exists()]. *)
  path_exists : string -> bool;
  (** The text of the vision service's response for an image, a slide
      index, a source name and the slide text. *)
  call_gemini : string -> Z -> string -> string -> exc string;
  (** [datetime.now()] rendered with [isoformat] and with [strftime]. *)
  now_isoformat : string;
  now_strftime : string -> string;
  (** Writing a text file: file name and content. *)
  write_file : string -> string -> exc unit;
  (** [_run_3_agent_pipeline_for_markdown]: the status of its result. *)
  run_3_agent_pipeline_for_markdown : string -> string -> exc string
}.

(** [hasattr(shape, "text") and shape.text.strip()]: the stripped text when
    the test succeeds. *)
Definition stripped_text (t : option string) : option string :=
  match t with
  | Some s => if truthy (strip s) then Some (strip s) else None
  | None => None
  end.

Definition is_some {A} (o : option A) : bool :=
  match o with Some _ => true | None => false end.

(** ** Slide filter *)

Definition skip_patterns : list string :=
  [ "thank you"; "thanks"; "appendix"; "questions"; "q&a";
    "contact us"; "contact information"; "contact:" ].

(** The loop over [slide.shapes] that builds [slide_text]. *)
Fixpoint filter_slide_text (acc : string) (slide : Slide) : string :=
  match slide with
  | [] => acc
  | shape :: rest =>
      match stripped_text (text shape) with
      | Some t => filter_slide_text (acc ++ " " ++ lower t) rest
      | None => filter_slide_text acc rest
      end
  end.

(** The loop over [skip_patterns], leaving at the first match. *)
Fixpoint should_skip (patterns : list string) (slide_text : string) : bool :=
  match patterns with
  | [] => false
  | pattern :: rest =>
      if contains pattern slide_text then true else should_skip rest slide_text
  end.

(** The loop over [enumerate(prs.slides, 1)]. *)
Fixpoint filter_loop (slides : list Slide) (slide_idx : Z)
    (valid_slides removed_slides : list Z) : list Z * list Z :=
  match slides with
  | [] => (valid_slides, removed_slides)
  | slide :: rest =>
      let slide_text := filter_slide_text EmptyString slide in
      if should_skip skip_patterns slide_text
      then filter_loop rest (slide_idx + 1) valid_slides (removed_slides ++ [slide_idx])
      else filter_loop rest (slide_idx + 1) (valid_slides ++ [slide_idx]) removed_slides
  end.

(** [list(range(1, n + 1))]. *)
Fixpoint range_from (start : Z) (n : nat) : list Z :=
  match n with
  | O => []
  | S n' => start :: range_from (start + 1) n'
  end.

Definition _filter_useless_slides (env : Env) : exc (list Z * list Z) :=
  try_except
    (prs <- Presentation env ;;
     Ok (filter_loop prs 1 [] []))
    (fun _ =>
       prs <- Presentation env ;;
       Ok (range_from 1 (List.length prs), [])).

(** ** Slide classifier *)

(** The loop of [_separate_table_slides] over the shapes of one slide,
    leaving at the first table. *)
Fixpoint find_table (slide : Slide) : exc bool :=
  match slide with
  | [] => Ok false
  | shape :: rest =>
      ty <- shape_type shape ;;
      if ty =? TABLE then Ok true else find_table rest
  end.

Definition slide_index_error : string := "slide index out of range".

Fixpoint separate_table_loop (prs : list Slide) (valid_slides : list Z)
    (table_slides regular_slides : list Z) : exc (list Z * list Z) :=
  match valid_slides with
  | [] => Ok (table_slides, regular_slides)
  | slide_idx :: rest =>
      slide <- py_index slide_index_error prs (slide_idx - 1) ;;
      has_table <- find_table slide ;;
      if has_table
      then separate_table_loop prs rest (table_slides ++ [slide_idx]) regular_slides
      else separate_table_loop prs rest table_slides (regular_slides ++ [slide_idx])
  end.

Definition _separate_table_slides (env : Env) (valid_slides : list Z)
  : list Z * list Z :=
  match (prs <- Presentation env ;;
         separate_table_loop prs valid_slides [] []) with
  | Ok r => r
  | Raise _ => ([], valid_slides)
  end.

Definition is_placeholder (shape : Shape) : bool :=
  let shape_name := lower (name shape) in
  contains "footer" shape_name
  || contains "slide number" shape_name
  || contains "placeholder" shape_name
  || placeholder_format shape.

Definition content_objects (slide : Slide) : list Shape :=
  filter (fun shape => negb (is_placeholder shape)) slide.

(** [[shape.shape_type for shape in shapes]]. *)
Fixpoint shape_types (l : list Shape) : exc (list Z) :=
  match l with
  | [] => Ok []
  | shape :: rest =>
      ty <- shape_type shape ;;
      tys <- shape_types rest ;;
      Ok (ty :: tys)
  end.

(** [types.count(x)]. *)
Definition count (x : Z) (types : list Z) : Z :=
  Z.of_nat (List.length (filter (fun y => y =? x) types)).

(** The test deciding whether an auto shape is left out of the visual
    graphics: a rectangle whose stripped text has more than 10 characters. *)
Definition simple_text_rectangle (shape : Shape) : bool :=
  let shape_name := lower (name shape) in
  let has_text := stripped_text (text shape) in
  let is_simple_rect := contains "rectangle" shape_name || contains "rect" shape_name in
  is_simple_rect &&
  match has_text with
  | Some t => 10 <? len t
  | None => false
  end.

(** The loop that collects [visual_graphics]. *)
Fixpoint visual_graphics (content : list Shape) : exc (list Shape) :=
  match content with
  | [] => Ok []
  | shape :: rest =>
      ty <- shape_type shape ;;
      vs <- visual_graphics rest ;;
      if ty =? PICTURE then Ok (shape :: vs)
      else if ty =? LINE then Ok (shape :: vs)
      else if ty =? AUTO_SHAPE then
        if negb (simple_text_rectangle shape) then Ok (shape :: vs) else Ok vs
      else Ok vs
  end.

Definition is_complex_body (slide : Slide) : exc bool :=
  let content := content_objects slide in
  content_obj_types <- shape_types content ;;
  let num_content_objects := Z.of_nat (List.length content_obj_types) in
  let num_tables := count TABLE content_obj_types in
  let num_pictures := count PICTURE content_obj_types in
  graphics <- visual_graphics content ;;
  let num_graphics := Z.of_nat (List.length graphics) in
  let has_connectors :=
    existsb (fun shape => contains "connector" (lower (name shape))) content in
  let has_groups := existsb (fun shape => is_some (shapes shape)) content in
  Ok ((6 <? num_content_objects)
      || (2 <? num_graphics)
      || has_connectors
      || has_groups
      || (0 <? num_pictures)
      || ((0 <? num_tables) && (0 <? num_graphics))).

Definition _is_complex_slide (slide : Slide) : bool :=
  match is_complex_body slide with
  | Ok is_complex => is_complex
  | Raise _ => false
  end.

(** The loop over the shapes of one slide that sets [has_table] and
    [has_textbox]. *)
Fixpoint table_and_textbox (slide : Slide) (has_table has_textbox : bool)
  : exc (bool * bool) :=
  match slide with
  | [] => Ok (has_table, has_textbox)
  | shape :: rest =>
      ty <- shape_type shape ;;
      let has_table' := if ty =? TABLE then true else has_table in
      let has_textbox' :=
        if (ty =? TEXT_BOX) && is_some (stripped_text (text shape))
        then true else has_textbox in
      table_and_textbox rest has_table' has_textbox'
  end.

Fixpoint separate_loop (prs : list Slide) (valid_slides : list Z)
    (table_slides complex_slides simple_slides : list Z)
  : exc (list Z * list Z * list Z) :=
  match valid_slides with
  | [] => Ok (table_slides, complex_slides, simple_slides)
  | slide_idx :: rest =>
      slide <- py_index slide_index_error prs (slide_idx - 1) ;;
      if _is_complex_slide slide
      then separate_loop prs rest table_slides (complex_slides ++ [slide_idx]) simple_slides
      else
        flags <- table_and_textbox slide false false ;;
        let '(has_table, has_textbox) := flags in
        if has_table && has_textbox
        then separate_loop prs rest table_slides (complex_slides ++ [slide_idx]) simple_slides
        else if has_table
        then separate_loop prs rest (table_slides ++ [slide_idx]) complex_slides simple_slides
        else separate_loop prs rest table_slides complex_slides (simple_slides ++ [slide_idx])
  end.

Definition _separate_slides_by_complexity (env : Env) (valid_slides : list Z)
  : list Z * list Z * list Z :=
  match (prs <- Presentation env ;;
         separate_loop prs valid_slides [] [] []) with
  | Ok r => r
  | Raise _ =>
      let '(table_slides, regular_slides) := _separate_table_slides env valid_slides in
      (table_slides, [], regular_slides)
  end.

(** ** Dictionaries keyed by slide index

    A Python [dict] keeps its keys in insertion order; assigning to a key
    that is present replaces the value in place. *)

Definition dict (V : Type) : Type := list (Z * V).

Fixpoint dict_set {V} (d : dict V) (k : Z) (v : V) : dict V :=
  match d with
  | [] => [(k, v)]
  | (k', v') :: rest =>
      if k' =? k then (k, v) :: rest else (k', v') :: dict_set rest k v
  end.

Fixpoint dict_get {V} (d : dict V) (k : Z) : option V :=
  match d with
  | [] => None
  | (k', v') :: rest => if k' =? k then Some v' else dict_get rest k
  end.

Definition keys {V} (d : dict V) : list Z := map fst d.

Definition KeyError (k : Z) : exn := mkExn "KeyError" (str_of_Z k).

(** [d[k]]. *)
Definition dict_getitem {V} (d : dict V) (k : Z) : exc V :=
  match dict_get d k with
  | Some v => Ok v
  | None => Raise (KeyError k)
  end.

(** [sorted(l)] on integers. *)
Fixpoint insert_sorted (x : Z) (l : list Z) : list Z :=
  match l with
  | [] => [x]
  | y :: rest => if x <=? y then x :: l else y :: insert_sorted x rest
  end.

Fixpoint sorted (l : list Z) : list Z :=
  match l with
  | [] => []
  | x :: rest => insert_sorted x (sorted rest)
  end.

Definition nonempty {A} (l : list A) : bool :=
  match l with [] => false | _ => true end.

(** ** Extraction router *)

Definition row_text_parts (row : list string) : list string :=
  filter truthy (map (fun cell_text => if truthy cell_text then strip cell_text else EmptyString) row).

Definition _extract_text_from_table (table_shape : Shape) : string :=
  let table_text_parts :=
    flat_map (fun row =>
                let parts := row_text_parts row in
                if nonempty parts then [join " | " parts] else [])
             (table table_shape) in
  if nonempty table_text_parts then join nl table_text_parts else EmptyString.

Definition opt_list {A} (o : option A) : list A :=
  match o with Some a => [a] | None => [] end.

(** What one shape adds to [slide_text_parts]; an error raised while the
    shape's type is read leaves what was added before it. *)
Definition shape_text_parts (shape : Shape) : list string :=
  let own := opt_list (stripped_text (text shape)) in
  match shape_type shape with
  | Raise _ => own
  | Ok ty =>
      own
      ++ (if ty =? TABLE
          then let table_text := _extract_text_from_table shape in
               if truthy table_text then [table_text] else []
          else [])
      ++ match shapes shape with
         | Some sub_shapes => flat_map (fun t => opt_list (stripped_text t)) sub_shapes
         | None => []
         end
  end.

Definition _extract_text_from_slide (slide : Slide) : string :=
  join nl (flat_map shape_text_parts slide).

Definition _process_slide_image_with_gemini (env : Env) (image_path : string)
    (slide_idx : Z) (source_file slide_text : string) : string :=
  match call_gemini env image_path slide_idx source_file slide_text with
  | Ok response =>
      let description := strip response in
      if truthy description then description
      else "[No content extracted from slide " ++ str_of_Z slide_idx ++ "]"
  | Raise e =>
      "[Error processing slide " ++ str_of_Z slide_idx ++ " with Gemini: "
      ++ exn_msg e ++ "]"
  end.

Definition text_only_fallback (slide_idx : Z) (slide_text : string) : string :=
  "**Slide " ++ str_of_Z slide_idx ++ " Content (text-only fallback):**" ++ nl
  ++ slide_text ++ nl ++ nl
  ++ "*Note: Image processing failed, using text extraction only*".

Definition no_content_placeholder (slide_idx : Z) : string :=
  "[Slide " ++ str_of_Z slide_idx
  ++ ": Image processing failed and no text content available]".

Definition _convert_slide_to_image_and_process (env : Env) (slide : Slide)
    (slide_idx : Z) (source_file : string) : string :=
  let slide_text := _extract_text_from_slide slide in
  match export_slide_as_image env slide_idx with
  | Ok image_path =>
      if truthy image_path && path_exists env image_path
      then _process_slide_image_with_gemini env image_path slide_idx source_file slide_text
      else if truthy (strip slide_text)
      then text_only_fallback slide_idx slide_text
      else no_content_placeholder slide_idx
  | Raise e =>
      "[Error processing slide " ++ str_of_Z slide_idx ++ ": " ++ exn_msg e ++ "]"
  end.

Record TableInfo := mkTableInfo {
  slide_number : Z;
  description : string;
  extracted_text : string
}.

Fixpoint table_slides_loop (env : Env) (prs : list Slide) (table_slides : list Z)
    (processed_tables : dict TableInfo) : exc (dict TableInfo) :=
  match table_slides with
  | [] => Ok processed_tables
  | slide_idx :: rest =>
      slide <- py_index slide_index_error prs (slide_idx - 1) ;;
      let slide_text := _extract_text_from_slide slide in
      let description :=
        _convert_slide_to_image_and_process env slide slide_idx (file_name env) in
      table_slides_loop env prs rest
        (dict_set processed_tables slide_idx
           (mkTableInfo slide_idx description slide_text))
  end.

Definition _process_table_slides (env : Env) (table_slides : list Z)
  : dict TableInfo :=
  if nonempty table_slides then
    match (prs <- Presentation env ;; table_slides_loop env prs table_slides []) with
    | Ok processed_tables => processed_tables
    | Raise _ => []
    end
  else [].

Definition slide_header (source : string) (slide_idx : Z) : string :=
  "## " ++ source ++ ":slide-" ++ str_of_Z slide_idx ++ nl ++ nl.

Fixpoint complex_slides_loop (env : Env) (prs : list Slide) (complex_slides : list Z)
    (complex_slide_descriptions : dict string) : exc (dict string) :=
  match complex_slides with
  | [] => Ok complex_slide_descriptions
  | slide_idx :: rest =>
      slide <- py_index slide_index_error prs (slide_idx - 1) ;;
      obj_types <- shape_types slide ;;
      let slide_description :=
        _convert_slide_to_image_and_process env slide slide_idx (file_name env) in
      let formatted_description :=
        slide_header (file_name env) slide_idx ++ slide_description in
      complex_slides_loop env prs rest
        (dict_set complex_slide_descriptions slide_idx formatted_description)
  end.

Definition _process_complex_slides_with_gemini (env : Env) (complex_slides : list Z)
  : dict string :=
  if nonempty complex_slides then
    match (prs <- Presentation env ;; complex_slides_loop env prs complex_slides []) with
    | Ok complex_slide_descriptions => complex_slide_descriptions
    | Raise _ => []
    end
  else [].

(** The texts collected from one simple slide. *)
Definition simple_slide_text (slide : Slide) : list string :=
  flat_map (fun shape => opt_list (stripped_text (text shape))) slide.

Fixpoint fallback_loop (env : Env) (prs : list Slide) (simple_slides : list Z)
    (fallback_content : list string) : list string :=
  match simple_slides with
  | [] => fallback_content
  | slide_idx :: rest =>
      match py_index slide_index_error prs (slide_idx - 1) with
      | Ok slide =>
          let slide_text := simple_slide_text slide in
          if nonempty slide_text
          then fallback_loop env prs rest
                 (fallback_content
                  ++ [slide_header (file_name env) slide_idx ++ join (nl ++ nl) slide_text])
          else fallback_loop env prs rest fallback_content
      | Raise _ => fallback_loop env prs rest fallback_content
      end
  end.

Definition _extract_fallback_text_from_slides (env : Env) (simple_slides : list Z)
  : string :=
  match Presentation env with
  | Ok prs => join (nl ++ nl) (fallback_loop env prs simple_slides [])
  | Raise _ => EmptyString
  end.

Definition _process_simple_slides_with_text_extraction (env : Env)
    (simple_slides : list Z) : string :=
  if nonempty simple_slides then
    let extracted_content := _extract_fallback_text_from_slides env simple_slides in
    if truthy extracted_content then extracted_content else EmptyString
  else EmptyString.

(** ** Result merger *)

Record ExtractionRecord := mkRecord {
  source : string;
  title : string;
  content : string;
  last_updated_date : string
}.

(** The characters of the class [[#*\-]]. *)
Definition marker (c : ascii) : bool :=
  Ascii.eqb c "#" || Ascii.eqb c "*" || Ascii.eqb c "-".

(** The characters of the class [[#*\-!]]. *)
Definition marker_or_bang (c : ascii) : bool :=
  marker c || Ascii.eqb c "!".

(** The loop over the lines of a section, leaving at the first title. *)
Fixpoint title_from_lines (lines : list string) : option string :=
  match lines with
  | [] => None
  | l :: rest =>
      let line := strip l in
      if truthy line && negb (startswith "!" line) && (len line <? 100)
      then
        let title := strip (remove_chars marker line) in
        if truthy title then Some (take 80 title) else title_from_lines rest
      else title_from_lines rest
  end.

(** The handler of the function ([return "Content Section"]) guards
    against a section that is not a string; on a string nothing raises. *)
Definition _extract_title_from_section (section : string) : string :=
  match title_from_lines (split nl section) with
  | Some title => title
  | None =>
      let clean_text := strip (remove_chars marker_or_bang section) in
      if 50 <? len clean_text then take 50 clean_text ++ "..." else clean_text
  end.

(** The loop over [enumerate(pages)]. *)
Fixpoint sections_loop (current_time source_file : string) (i : Z)
    (pages : list string) : list ExtractionRecord :=
  match pages with
  | [] => []
  | page :: rest =>
      let section := strip page in
      if truthy section && (50 <? len section)
      then mkRecord (source_file ++ ":slide-" ++ str_of_Z (i + 1))
                    (_extract_title_from_section section)
                    section current_time
           :: sections_loop current_time source_file (i + 1) rest
      else sections_loop current_time source_file (i + 1) rest
  end.

Definition _extract_sections_from_markdown (env : Env)
    (markdown_content source_file : string) : list ExtractionRecord :=
  sections_loop (now_isoformat env) source_file 0 (split (nl ++ nl) markdown_content).

Record TableProcessing := mkTableProcessing {
  tp_slide_number : Z;
  tp_processing_method : string;
  tp_source : string;
  tp_description_length : Z;
  tp_extracted_text_length : Z
}.

(** The result of the markdown pipeline: its status, or the error caught
    around the call. *)
Inductive PipelineResult :=
| PipelineStatus (status : string)
| PipelineError (error : string).

(** The dictionary returned by [_process_csvs_and_combine_results] when
    nothing raised. *)
Record CombinedResult := mkCombined {
  source_file : string;
  total_markdown_entries : Z;
  total_table_slides_processed : Z;
  total_complex_slides_identified : Z;
  raw_ocr_markdown_file : option string;
  final_enhanced_markdown_file : string;
  enhanced_markdown : string;
  enhanced_markdown_pipeline_result : PipelineResult;
  markdown_data : list ExtractionRecord;
  table_processing_results : list TableProcessing;
  complex_slides_info : dict string;
  table_slides_info : dict TableInfo
}.

(** The three shapes of dictionary that [process_powerpoint_file] returns. *)
Inductive ResultObject :=
| Combined (r : CombinedResult)
| CombineError (source_file error : string)
| Failure (success : bool) (error exception_type : string).


Definition simple_title : string := "# Simple Slides (Text Extraction)" ++ nl ++ nl.
Definition complex_title : string := "# Complex Slides (Gemini Vision Analysis)" ++ nl ++ nl.
Definition table_title : string := "# Table Slides (Gemini Analysis)" ++ nl ++ nl.

(** The loop over [sorted(complex_slide_descriptions.keys())]. *)
Fixpoint complex_section_loop (d : dict string) (slide_indices : list Z)
    (enhanced_markdown : string) : exc string :=
  match slide_indices with
  | [] => Ok enhanced_markdown
  | slide_idx :: rest =>
      desc <- dict_getitem d slide_idx ;;
      complex_section_loop d rest (enhanced_markdown ++ desc ++ nl ++ nl)
  end.

(** The loop over [sorted(processed_tables.keys())]. *)
Fixpoint table_section_loop (source_file : string) (d : dict TableInfo)
    (slide_indices : list Z) (enhanced_markdown : string) : exc string :=
  match slide_indices with
  | [] => Ok enhanced_markdown
  | slide_idx :: rest =>
      table_info <- dict_getitem d slide_idx ;;
      table_section_loop source_file d rest
        (enhanced_markdown ++ slide_header source_file slide_idx
         ++ description table_info ++ nl ++ nl)
  end.

Definition build_enhanced_markdown (markdown_content source_file : string)
    (processed_tables : dict TableInfo) (complex_slide_descriptions : dict string)
  : exc string :=
  let md0 := EmptyString in
  let md1 :=
    if truthy markdown_content
    then md0 ++ simple_title ++ markdown_content ++ nl ++ nl
    else md0 in
  md2 <- (if nonempty complex_slide_descriptions
          then complex_section_loop complex_slide_descriptions
                 (sorted (keys complex_slide_descriptions)) (md1 ++ complex_title)
          else Ok md1) ;;
  (if nonempty processed_tables
   then table_section_loop source_file processed_tables
          (sorted (keys processed_tables)) (md2 ++ table_title)
   else Ok md2).

Definition complex_records (current_time source_file : string)
    (complex_slide_descriptions : dict string) : list ExtractionRecord :=
  map (fun '(slide_idx, description) =>
         mkRecord (source_file ++ ":slide-" ++ str_of_Z slide_idx)
                  ("Complex Slide " ++ str_of_Z slide_idx ++ " Analysis")
                  description current_time)
      complex_slide_descriptions.

Definition table_records (current_time source_file : string)
    (processed_tables : dict TableInfo) : list ExtractionRecord :=
  map (fun '(slide_idx, table_info) =>
         mkRecord (source_file ++ ":slide-" ++ str_of_Z slide_idx)
                  ("Table Slide " ++ str_of_Z slide_idx ++ " Analysis")
                  (description table_info) current_time)
      processed_tables.

Definition table_processing (source_file : string)
    (processed_tables : dict TableInfo) : list TableProcessing :=
  map (fun '(slide_idx, table_info) =>
         mkTableProcessing slide_idx "gemini_vision_only"
           (source_file ++ ":slide-" ++ str_of_Z slide_idx)
           (len (description table_info)) (len (extracted_text table_info)))
      processed_tables.

Definition combine_body (env : Env) (markdown_content : string)
    (processed_tables : dict TableInfo) (source_file : string)
    (raw_ocr_path : option string) (complex_slide_descriptions : dict string)
  : exc CombinedResult :=
  let current_time := now_isoformat env in
  enhanced_markdown <- build_enhanced_markdown markdown_content source_file
                         processed_tables complex_slide_descriptions ;;
  let final_markdown_filename :=
    file_stem env ++ "_final_enhanced_" ++ now_strftime env "%Y%m%d_%H%M%S" ++ ".md" in
  _ <- write_file env final_markdown_filename
         ("# Complete Analysis of " ++ source_file ++ nl ++ nl
          ++ "*Generated on " ++ now_strftime env "%Y-%m-%d %H:%M:%S" ++ "*" ++ nl ++ nl
          ++ enhanced_markdown) ;;
  let enhanced_md_pipeline_result :=
    match run_3_agent_pipeline_for_markdown env final_markdown_filename source_file with
    | Ok status => PipelineStatus status
    | Raise e => PipelineError (exn_msg e)
    end in
  let markdown_data : list ExtractionRecord :=
    ((if truthy markdown_content
      then _extract_sections_from_markdown env markdown_content source_file
      else [])
     ++ complex_records current_time source_file complex_slide_descriptions
     ++ table_records current_time source_file processed_tables)%list in
  let table_processing_results := table_processing source_file processed_tables in
  Ok (mkCombined source_file
        (Z.of_nat (List.length markdown_data))
        (Z.of_nat (List.length table_processing_results))
        (Z.of_nat (List.length complex_slide_descriptions))
        raw_ocr_path final_markdown_filename enhanced_markdown
        enhanced_md_pipeline_result markdown_data table_processing_results
        complex_slide_descriptions processed_tables).

Definition _process_csvs_and_combine_results (env : Env) (markdown_content : string)
    (processed_tables : dict TableInfo) (source_file : string)
    (raw_ocr_path : option string) (complex_slide_descriptions : dict string)
  : ResultObject :=
  match combine_body env markdown_content processed_tables source_file
          raw_ocr_path complex_slide_descriptions with
  | Ok r => Combined r
  | Raise e => CombineError source_file (exn_msg e)
  end.

(** ** The whole workflow *)

Definition raw_text_markdown (env : Env) (markdown_content : string)
    (complex_slide_descriptions : dict string) : string :=
  "# Raw Text Extraction from " ++ file_name env ++ nl ++ nl
  ++ "*Generated on " ++ now_strftime env "%Y-%m-%d %H:%M:%S" ++ "*" ++ nl ++ nl
  ++ "## Simple Slides - Text Extraction" ++ nl ++ nl
  ++ markdown_content
  ++ nl ++ nl ++ "## Complex Slides (Image-based extraction)" ++ nl ++ nl
  ++ (if nonempty complex_slide_descriptions
      then String.concat EmptyString
             (map (fun '(slide_num, description) =>
                     "### " ++ file_name env ++ ":slide-" ++ str_of_Z slide_num ++ nl
                     ++ strip description ++ nl ++ nl)
                  complex_slide_descriptions)
      else "*Complex slides identified but not yet processed - placeholder for future image extraction*" ++ nl).

Definition process_body (env : Env) : exc ResultObject :=
  filtered <- _filter_useless_slides env ;;
  let '(valid_slides, removed_slides) := filtered in
  let '(table_slides, complex_slides, simple_slides) :=
    _separate_slides_by_complexity env valid_slides in
  let processed_tables := _process_table_slides env table_slides in
  let complex_slide_descriptions :=
    _process_complex_slides_with_gemini env complex_slides in
  let markdown_content :=
    _process_simple_slides_with_text_extraction env simple_slides in
  let raw_text_filename :=
    file_stem env ++ "_raw_text_extraction_" ++ now_strftime env "%Y%m%d_%H%M%S" ++ ".md" in
  raw_text_path <-
    (if truthy markdown_content
     then _ <- write_file env raw_text_filename
                 (raw_text_markdown env markdown_content complex_slide_descriptions) ;;
          Ok (Some raw_text_filename)
     else Ok None) ;;
  Ok (_process_csvs_and_combine_results env markdown_content processed_tables
        (file_name env) raw_text_path complex_slide_descriptions).

Definition process_powerpoint_file (env : Env) : exc ResultObject :=
  try_except (process_body env)
    (fun e => Ok (Failure false (exn_msg e) (exn_type e))).

(** ** Other functions of the processor *)









(** ** Context of an image reference *)

(** [s[n:]] for [n >= 0]. *)
Fixpoint drop (n : nat) (s : string) : string :=
  match n, s with
  | O, _ => s
  | S n', String _ s' => drop n' s'
  | S _, EmptyString => EmptyString
  end.

(** [s[a:b]] for [a >= 0] and [b >= 0]: empty when [b <= a] or when [a] is
    past the end, cut at the end of the string when [b] is past it. *)
Definition slice (a b : Z) (s : string) : string :=
  take (Z.to_nat (b - a)) (drop (Z.to_nat a) s).

(** [re.search] for a pattern that is an escaped literal: the start of the
    leftmost occurrence of [pat] in [s], counted from [pos]. *)
Fixpoint search (pat s : string) (pos : Z) : option Z :=
  if startswith pat s then Some pos
  else match s with
       | EmptyString => None
       | String _ s' => search pat s' (pos + 1)
       end.

(** [l[-n:]] for [n > 0]. *)
Definition last_n {A} (n : nat) (l : list A) : list A :=
  skipn (List.length l - n) l.

(** [_extract_context_around_image]: the pattern is the literal
    exclamation mark, bracket, escaped name, bracket.  No operation of the
    body raises on strings, so the handler is not reached. *)
Definition _extract_context_around_image (markdown_content img_name : string)
  : string :=
  let img_pattern := "![" ++ img_name ++ "]" in
  match search img_pattern markdown_content 0 with
  | None => EmptyString
  | Some img_pos =>
      let match_end := img_pos + len img_pattern in
      let start_pos := Z.max 0 (img_pos - 500) in
      let end_pos := Z.min (len markdown_content) (img_pos + 500) in
      let context_before := strip (slice start_pos img_pos markdown_content) in
      let context_after := strip (slice match_end end_pos markdown_content) in
      let context_parts : list string := [] in
      let context_parts :=
        if truthy context_before
        then
          let context_before_lines := last_n 3 (split nl context_before) in
          let context_before_clean := strip (join nl context_before_lines) in
          if truthy context_before_clean
          then (context_parts ++ [("BEFORE: " ++ context_before_clean)%string])%list
          else context_parts
        else context_parts in
      let context_parts :=
        if truthy context_after
        then
          let context_after_lines := firstn 3 (split nl context_after) in
          let context_after_clean := strip (join nl context_after_lines) in
          if truthy context_after_clean
          then (context_parts ++ [("AFTER: " ++ context_after_clean)%string])%list
          else context_parts
        else context_parts in
      join nl context_parts
  end.

(** * Vocabulary of the properties *)

(** The slide with 1-based index [idx], if the presentation has one. *)
Definition slide_at (prs : list Slide) (idx : Z) : option Slide :=
  if 1 <=? idx then nth_error prs (Z.to_nat (idx - 1)) else None.

(** The stripped, non-empty texts of the shapes that have a text attribute,
    in shape order. *)
Definition shape_texts (slide : Slide) : list string :=
  flat_map (fun shape => opt_list (stripped_text (text shape))) slide.

(** The lower-cased concatenation of a slide's texts, each preceded by a
    space. *)
Definition folded_text (slide : Slide) : string :=
  fold_right (fun t acc => " " ++ lower t ++ acc) EmptyString (shape_texts slide).

(** Some skip pattern occurs somewhere in the folded text of the slide. *)
Definition matches_pattern (slide : Slide) : Prop :=
  exists pattern pre post,
    In pattern skip_patterns /\ folded_text slide = pre ++ pattern ++ post.

(** The decision the filter takes on one slide. *)
Definition skips (slide : Slide) : bool :=
  should_skip skip_patterns (filter_slide_text EmptyString slide).

(** The indices, counted from [i], of the slides on which the filter's
    decision is [b]. *)
Fixpoint select (b : bool) (i : Z) (slides : list Slide) : list Z :=
  match slides with
  | [] => []
  | slide :: rest =>
      if Bool.eqb (skips slide) b then i :: select b (i + 1) rest
      else select b (i + 1) rest
  end.

(** A shape whose table cells are replaced by [cells shape]. *)
Definition with_table (cells : Shape -> list (list string)) (shape : Shape) : Shape :=
  mkShape (name shape) (shape_type shape) (text shape) (placeholder_format shape)
          (shapes shape) (cells shape).

Definition has_text_attribute (shape : Shape) : bool := is_some (text shape).

(** The three categories of the classifier. *)
Inductive Category := Table | Complex | Simple.

Definition Category_eqb (a b : Category) : bool :=
  match a, b with
  | Table, Table | Complex, Complex | Simple, Simple => true
  | _, _ => false
  end.

(** The type of the shape can be read. *)
Definition readable (shape : Shape) : bool :=
  match shape_type shape with Ok _ => true | Raise _ => false end.

(** The shape is of the given type. *)
Definition has_type (ty : Z) (shape : Shape) : bool :=
  match shape_type shape with Ok ty' => ty' =? ty | Raise _ => false end.


Definition has_table (slide : Slide) : bool := existsb (has_type TABLE) slide.


(** The category that the body of the classification loop gives to the
    slide of index [slide_idx]. *)
Definition loop_category (prs : list Slide) (slide_idx : Z) : exc Category :=
  slide <- py_index slide_index_error prs (slide_idx - 1) ;;
  if _is_complex_slide slide then Ok Complex
  else
    flags <- table_and_textbox slide false false ;;
    let '(has_table, has_textbox) := flags in
    if has_table && has_textbox then Ok Complex
    else if has_table then Ok Table
    else Ok Simple.

Definition in_category (prs : list Slide) (cat : Category) (slide_idx : Z) : bool :=
  match loop_category prs slide_idx with
  | Ok c => Category_eqb c cat
  | Raise _ => false
  end.

(** The answer of the table-separation loop on the slide of index
    [slide_idx]. *)
Definition loop_has_table (prs : list Slide) (slide_idx : Z) : exc bool :=
  slide <- py_index slide_index_error prs (slide_idx - 1) ;;
  find_table slide.

Definition table_flag (prs : list Slide) (b : bool) (slide_idx : Z) : bool :=
  match loop_has_table prs slide_idx with
  | Ok b' => Bool.eqb b' b
  | Raise _ => false
  end.

(** Each index of [valid] lies in exactly one of the three lists. *)
Definition exactly_one (valid t c s : list Z) : Prop :=
  forall idx, In idx valid ->
    (In idx t /\ ~ In idx c /\ ~ In idx s) \/
    (~ In idx t /\ In idx c /\ ~ In idx s) \/
    (~ In idx t /\ ~ In idx c /\ In idx s).

(** Exactly one of three booleans is [true]. *)
Definition one_true (a b c : bool) : Prop :=
  (a = true /\ b = false /\ c = false) \/
  (a = false /\ b = true /\ c = false) \/
  (a = false /\ b = false /\ c = true).

Definition is_ok {A} (m : exc A) : bool :=
  match m with Ok _ => true | Raise _ => false end.

(** The type code of a shape whose type can be read. *)
Definition type_of (shape : Shape) : Z :=
  match shape_type shape with Ok ty => ty | Raise _ => 0 end.

(** An auto shape that only holds text: its name contains "rectangle" or
    "rect", it has non-empty text, and that text has more than 10
    characters. *)
Definition text_rectangle (shape : Shape) : bool :=
  (contains "rectangle" (lower (name shape)) || contains "rect" (lower (name shape)))
  && match text shape with
     | Some t => truthy (strip t) && (10 <? len (strip t))
     | None => false
     end.

(** Pictures, lines and connectors, and the auto shapes that are not text
    rectangles. *)
Definition is_visual_graphic (shape : Shape) : bool :=
  has_type PICTURE shape || has_type LINE shape
  || (has_type AUTO_SHAPE shape && negb (text_rectangle shape)).

(** The complexity rule of the design, over the content shapes. *)
Definition complex_rule (slide : Slide) : Prop :=
  let content := content_objects slide in
  let graphics := filter is_visual_graphic content in
  (6 < List.length content)%nat
  \/ (2 < List.length graphics)%nat
  \/ (exists shape, In shape content /\ contains "connector" (lower (name shape)) = true)
  \/ (exists shape, In shape content /\ shapes shape <> None)
  \/ (0 < List.length (filter (has_type PICTURE) content))%nat
  \/ ((0 < List.length (filter (has_type TABLE) content))%nat
      /\ (0 < List.length graphics)%nat).

(** The slide of index [idx] can be fetched and all its shape types read. *)
Definition classifiable (prs : list Slide) (idx : Z) : Prop :=
  exists slide, py_index slide_index_error prs (idx - 1) = Ok slide
                /\ forallb readable slide = true.


(** The title as the design document words it: the first non-empty line
    under 100 characters, markers removed, cut at 80 characters; failing
    that, the first 50 characters of the cleaned content. *)
Definition claimed_title (section : string) : string :=
  match find (fun line => truthy line && (len line <? 100))
             (map strip (split nl section)) with
  | Some line => take 80 (strip (remove_chars marker line))
  | None => take 50 (strip (remove_chars marker_or_bang section))
  end.

(** A line that can give the title: non-empty, not starting with an
    exclamation mark, under 100 characters, and not empty once the markers
    are removed. *)
Definition title_line (line : string) : bool :=
  truthy line && negb (startswith "!" line) && (len line <? 100)
  && truthy (strip (remove_chars marker line)).

Definition derived_title (section : string) : string :=
  match find title_line (map strip (split nl section)) with
  | Some line => take 80 (strip (remove_chars marker line))
  | None =>
      let clean_text := strip (remove_chars marker_or_bang section) in
      if 50 <? len clean_text then take 50 clean_text ++ "..." else clean_text
  end.

(** Rendering failed for the slide: the exporter returned, and what it
    returned is empty or is not the path of an existing file. *)
Definition render_failed (env : Env) (idx : Z) : Prop :=
  exists image_path,
    export_slide_as_image env idx = Ok image_path /\
    truthy image_path && path_exists env image_path = false.

(** The common shape of the loops that fill a dictionary, one entry per
    listed index. *)
Fixpoint dict_fill {V} (entry : Z -> exc V) (l : list Z) (d : dict V) : exc (dict V) :=
  match l with
  | [] => Ok d
  | i :: rest => v <- entry i ;; dict_fill entry rest (dict_set d i v)
  end.

Definition complex_entry (env : Env) (prs : list Slide) (slide_idx : Z) : exc string :=
  slide <- py_index slide_index_error prs (slide_idx - 1) ;;
  obj_types <- shape_types slide ;;
  Ok (slide_header (file_name env) slide_idx
      ++ _convert_slide_to_image_and_process env slide slide_idx (file_name env)).

Definition table_entry (env : Env) (prs : list Slide) (slide_idx : Z) : exc TableInfo :=
  slide <- py_index slide_index_error prs (slide_idx - 1) ;;
  Ok (mkTableInfo slide_idx
        (_convert_slide_to_image_and_process env slide slide_idx (file_name env))
        (_extract_text_from_slide slide)).

(** The blocks of the simple text that become records: separated by blank
    lines, and of more than 50 characters once stripped. *)
Definition substantial_blocks (markdown_content : string) : list string :=
  filter (fun page => truthy (strip page) && (50 <? len (strip page)))
         (split (nl ++ nl) markdown_content).

(** The simple slides from which some text was extracted. *)
Definition slides_with_text (env : Env) (simple_slides : list Z) : list Z :=
  filter (fun slide_idx =>
            match Presentation env with
            | Ok prs =>
                match py_index slide_index_error prs (slide_idx - 1) with
                | Ok slide => nonempty (shape_texts slide)
                | Raise _ => false
                end
            | Raise _ => false
            end) simple_slides.

(** The record of a slide processed by the image-based strategies names
    that slide as its source. *)
Definition slide_source (source_file : string) (slide_idx : Z) : string :=
  source_file ++ ":slide-" ++ str_of_Z slide_idx.



(** The text of one entry of the simple text: header and body. *)
Definition entry_text (source : string) (e : Z * string) : string :=
  slide_header source (fst e) ++ snd e.

(** The entries that the text extraction produces for the listed slides. *)
Definition simple_entries (prs : list Slide) (simple_slides : list Z) : list (Z * string) :=
  flat_map (fun slide_idx =>
              match py_index slide_index_error prs (slide_idx - 1) with
              | Ok slide =>
                  if nonempty (simple_slide_text slide)
                  then [(slide_idx, join (nl ++ nl) (simple_slide_text slide))]
                  else []
              | Raise _ => []
              end) simple_slides.

(** A description that starts with the header of its slide. *)
Definition headed (source : string) (kv : Z * string) : Prop :=
  exists body, snd kv = slide_header source (fst kv) ++ body.

(** Every character of the string satisfies [p]. *)
Fixpoint chars_all (p : ascii -> bool) (s : string) : bool :=
  match s with
  | EmptyString => true
  | String c s' => p c && chars_all p s'
  end.

(** The stripped page at 1-based position [k], if any. *)
Definition stripped_page (pages : list string) (k : Z) : option string :=
  option_map strip (nth_error pages (Z.to_nat (k - 1))).



(** A stripped, non-empty string. *)
Definition good (s : string) : Prop := strip s = s /\ truthy s = true.

(** The number of line breaks of a string. *)
Fixpoint newlines (s : string) : Z :=
  match s with
  | EmptyString => 0
  | String c s' => (if Ascii.eqb "010"%char c then 1 else 0) + newlines s'
  end.

(** The reference to an image in a markdown text. *)
Definition image_ref (img_name : string) : string := "![" ++ img_name ++ "]".

(** A string of blanks. *)
Definition blank (s : string) : bool := chars_all is_space s.

(** The first reference to the image is at position [pos]: the text from
    there on starts with the reference, and no earlier position does. *)
Definition first_ref_at (markdown_content img_name : string) (pos : nat) : Prop :=
  startswith (image_ref img_name) (drop pos markdown_content) = true /\
  (pos <= String.length markdown_content)%nat /\
  forall q, (q < pos)%nat ->
            startswith (image_ref img_name) (drop q markdown_content) = false.

(** ** Sample data *)

Definition text_box (n t : string) : Shape :=
  mkShape n (Ok TEXT_BOX) (Some t) false None [].

Definition table_shape (n : string) (cells : list (list string)) : Shape :=
  mkShape n (Ok TABLE) None false None cells.

Definition unrecognised (n : string) : Shape :=
  mkShape n (Raise (mkExn "NotImplementedError" "Shape instance of unrecognized shape type"))
          None false None [].

(** An environment in which the parser returns [prs], no slide can be
    rendered, and every other collaborator succeeds. *)
Definition sample_env (prs : list Slide) : Env :=
  mkEnv (Ok prs) "deck.pptx" "deck"
        (fun _ => Ok EmptyString) (fun _ => false)
        (fun _ _ _ _ => Ok "description")
        "2024-01-01T00:00:00" (fun _ => "20240101_000000")
        (fun _ _ => Ok tt) (fun _ _ => Ok "success").


Definition picture (n : string) : Shape :=
  mkShape n (Ok PICTURE) None false None [].

(** A footer whose type cannot be read. *)
Definition unreadable_footer : Shape :=
  mkShape "Footer Placeholder 3"
          (Raise (mkExn "NotImplementedError" "Shape instance of unrecognized shape type"))
          (Some "Confidential") false None [].

(** * Properties *)

(** ** Strings *)

Lemma append_nil_r (s : string) : s ++ EmptyString = s.
Proof. induction s; simpl; congruence. Qed.

Lemma append_assoc (a b c : string) : (a ++ b) ++ c = a ++ (b ++ c).
Proof. induction a; simpl; congruence. Qed.

Lemma startswith_spec (p s : string) :
  startswith p s = true <-> exists post, s = p ++ post.
Proof.
  revert s. induction p as [|a p IH]; intros s; simpl.
  - split; [intros _; now exists s | reflexivity].
  - destruct s as [|b s].
    + split; [discriminate | intros [post H]; discriminate].
    + rewrite andb_true_iff, Ascii.eqb_eq, IH. split.
      * intros [-> [post ->]]. now exists post.
      * intros [post H]. injection H as -> ->. split; [reflexivity | now exists post].
Qed.

Lemma contains_spec (pat s : string) :
  contains pat s = true <-> exists pre post, s = pre ++ pat ++ post.
Proof.
  induction s as [|c s IH].
  - simpl. rewrite orb_false_r, startswith_spec. split.
    + intros [post H]. exists EmptyString, post. exact H.
    + intros [pre [post H]]. destruct pre; simpl in H.
      * now exists post.
      * discriminate.
  - cbn [contains]. rewrite orb_true_iff, startswith_spec, IH. split.
    + intros [[post H] | [pre [post H]]].
      * exists EmptyString, post. exact H.
      * exists (String c pre), post. simpl. now rewrite H.
    + intros [pre [post H]]. destruct pre as [|c' pre]; simpl in H.
      * left. now exists post.
      * right. injection H as _ H. now exists pre, post.
Qed.

Lemma contains_app (pre pat post : string) : contains pat (pre ++ pat ++ post) = true.
Proof. apply contains_spec. now exists pre, post. Qed.

(** ** Slide filter *)

Lemma filter_slide_text_acc (slide : Slide) (acc : string) :
  filter_slide_text acc slide = acc ++ folded_text slide.
Proof.
  revert acc. induction slide as [|shape rest IH]; intros acc.
  - simpl. now rewrite append_nil_r.
  - unfold folded_text, shape_texts in *. simpl.
    destruct (stripped_text (text shape)) as [t|]; simpl.
    + rewrite IH, !append_assoc. reflexivity.
    + apply IH.
Qed.

Lemma filter_slide_text_folded (slide : Slide) :
  filter_slide_text EmptyString slide = folded_text slide.
Proof. now rewrite filter_slide_text_acc. Qed.

Lemma should_skip_spec (patterns : list string) (slide_text : string) :
  should_skip patterns slide_text = true <->
  exists pattern pre post, In pattern patterns /\ slide_text = pre ++ pattern ++ post.
Proof.
  induction patterns as [|p rest IH]; simpl.
  - split; [discriminate | intros (? & ? & ? & [] & _)].
  - destruct (contains p slide_text) eqn:E.
    + split; [intros _ | reflexivity].
      apply contains_spec in E. destruct E as (pre & post & E).
      exists p, pre, post. auto.
    + rewrite IH. split.
      * intros (q & pre & post & Hin & E'). exists q, pre, post. auto.
      * intros (q & pre & post & [<- | Hin] & E').
        -- assert (contains p slide_text = true) by (apply contains_spec; eauto).
           congruence.
        -- exists q, pre, post. auto.
Qed.

Lemma skips_spec (slide : Slide) : skips slide = true <-> matches_pattern slide.
Proof.
  unfold skips, matches_pattern. rewrite filter_slide_text_folded.
  apply should_skip_spec.
Qed.

Lemma filter_loop_select (slides : list Slide) (i : Z) (valid removed : list Z) :
  filter_loop slides i valid removed
  = (valid ++ select false i slides, removed ++ select true i slides)%list.
Proof.
  revert i valid removed. induction slides as [|slide rest IH]; intros i valid removed.
  - simpl. now rewrite !app_nil_r.
  - cbn [filter_loop select].
    change (should_skip skip_patterns (filter_slide_text EmptyString slide))
      with (skips slide).
    destruct (skips slide); cbn [Bool.eqb]; rewrite IH, <- app_assoc; reflexivity.
Qed.

Lemma in_select (b : bool) (slides : list Slide) (i idx : Z) :
  In idx (select b i slides) <->
  exists slide, i <= idx /\ nth_error slides (Z.to_nat (idx - i)) = Some slide
                /\ skips slide = b.
Proof.
  revert i. induction slides as [|slide rest IH]; intros i.
  - simpl. split; [tauto | intros (s & _ & H & _)].
    destruct (Z.to_nat (idx - i)); discriminate.
  - assert (Hrest : In idx (select b (i + 1) rest) <->
              exists s, i < idx /\ nth_error (slide :: rest) (Z.to_nat (idx - i)) = Some s
                        /\ skips s = b).
    { rewrite IH. split; intros (s & Hle & Hn & Hs); exists s.
      - replace (Z.to_nat (idx - i)) with (S (Z.to_nat (idx - (i + 1)))) by lia.
        repeat split; [lia | exact Hn | exact Hs].
      - replace (Z.to_nat (idx - i)) with (S (Z.to_nat (idx - (i + 1)))) in Hn by lia.
        repeat split; [lia | exact Hn | exact Hs]. }
    simpl select. destruct (Bool.eqb (skips slide) b) eqn:E.
    + simpl. rewrite Hrest. split.
      * intros [<- | (s & Hlt & Hn & Hs)].
        -- exists slide. rewrite Z.sub_diag. simpl.
           apply eqb_prop in E. repeat split; [lia | exact E].
        -- exists s. repeat split; [lia | exact Hn | exact Hs].
      * intros (s & Hle & Hn & Hs).
        destruct (Z.eq_dec i idx) as [-> | Hne]; [now left | right].
        exists s. repeat split; [lia | exact Hn | exact Hs].
    + rewrite Hrest. split.
      * intros (s & Hlt & Hn & Hs). exists s. repeat split; [lia | exact Hn | exact Hs].
      * intros (s & Hle & Hn & Hs).
        destruct (Z.eq_dec i idx) as [-> | Hne].
        -- rewrite Z.sub_diag in Hn. simpl in Hn. injection Hn as ->.
           rewrite Hs, eqb_reflx in E. discriminate.
        -- exists s. repeat split; [lia | exact Hn | exact Hs].
Qed.

Lemma in_select_slide_at (b : bool) (prs : list Slide) (idx : Z) :
  In idx (select b 1 prs) <-> exists slide, slide_at prs idx = Some slide /\ skips slide = b.
Proof.
  rewrite in_select. unfold slide_at. split.
  - intros (s & Hle & Hn & Hs). exists s.
    destruct (1 <=? idx) eqn:E; [auto | lia].
  - intros (s & Hn & Hs). exists s.
    destruct (1 <=? idx) eqn:E; [|discriminate].
    repeat split; [lia | exact Hn | exact Hs].
Qed.

Lemma filter_ok (env : Env) (prs : list Slide) :
  Presentation env = Ok prs ->
  _filter_useless_slides env = Ok (select false 1 prs, select true 1 prs).
Proof.
  intros H. unfold _filter_useless_slides. rewrite H. simpl.
  now rewrite filter_loop_select.
Qed.

(** C4.  When the presentation can be read, the filter returns two lists:
    a slide index is in the removed list exactly when the slide's folded
    text (the lower-cased, stripped texts of its shapes, each preceded by a
    space) contains one of the skip patterns as a substring, and in the
    valid list exactly when it contains none. *)
Theorem filter_removes_iff_pattern (env : Env) (prs : list Slide) :
  Presentation env = Ok prs ->
  exists valid_slides removed_slides,
    _filter_useless_slides env = Ok (valid_slides, removed_slides) /\
    forall idx,
      (In idx removed_slides <->
       exists slide, slide_at prs idx = Some slide /\ matches_pattern slide) /\
      (In idx valid_slides <->
       exists slide, slide_at prs idx = Some slide /\ ~ matches_pattern slide).
Proof.
  intros H. exists (select false 1 prs), (select true 1 prs).
  split; [now apply filter_ok|]. intros idx. rewrite !in_select_slide_at.
  split; split; intros (s & Hs & Hk); exists s; split; try exact Hs.
  - now apply skips_spec.
  - now apply skips_spec.
  - rewrite <- skips_spec. congruence.
  - rewrite <- skips_spec in Hk. now destruct (skips s).
Qed.

(** C10.  The filter reads only the text attribute of shapes.  Let the
    slide at index [idx] be [slide] with arbitrary table cells [cells]; if
    the texts of the shapes that have a text attribute contain no skip
    pattern, the slide is kept as valid, whatever the cells hold. *)
Theorem filter_ignores_table_cells (env : Env) (prs : list Slide) (idx : Z)
    (slide : Slide) (cells : Shape -> list (list string)) :
  Presentation env = Ok prs ->
  slide_at prs idx = Some (map (with_table cells) slide) ->
  ~ matches_pattern (filter has_text_attribute slide) ->
  exists valid_slides removed_slides,
    _filter_useless_slides env = Ok (valid_slides, removed_slides) /\
    In idx valid_slides /\ ~ In idx removed_slides.
Proof.
  intros Hp Hs Hm.
  assert (Ht : forall sl, shape_texts (map (with_table cells) sl)
                          = shape_texts (filter has_text_attribute sl)).
  { induction sl as [|sh rest IH]; [reflexivity|].
    unfold shape_texts in *. cbn [map filter flat_map].
    unfold has_text_attribute at 1. cbn [with_table text].
    destruct (text sh) as [t|] eqn:E; cbn [is_some flat_map].
    - cbn [text with_table]. now rewrite IH, E.
    - cbn [text with_table]. exact IH. }
  assert (Hk : skips (map (with_table cells) slide) = false).
  { destruct (skips (map (with_table cells) slide)) eqn:E; [|reflexivity].
    exfalso. apply Hm. apply skips_spec in E.
    unfold matches_pattern, folded_text in *. now rewrite <- Ht. }
  exists (select false 1 prs), (select true 1 prs).
  split; [now apply filter_ok|]. rewrite !in_select_slide_at. split.
  - eexists. split; [exact Hs | exact Hk].
  - intros (s' & Hs' & Hk'). congruence.
Qed.

(** ** Slide classifier: the partition *)

Lemma partition_by (p1 p2 p3 : Z -> bool) (l : list Z) :
  (forall i, In i l -> one_true (p1 i) (p2 i) (p3 i)) ->
  Permutation (filter p1 l ++ filter p2 l ++ filter p3 l) l /\
  exactly_one l (filter p1 l) (filter p2 l) (filter p3 l).
Proof.
  intros H. split.
  - induction l as [|x l IH]; [constructor|].
    assert (IH' := IH (fun i Hi => H i (or_intror Hi))). clear IH.
    cbn [filter].
    destruct (H x (or_introl eq_refl)) as [(-> & -> & ->) | [(-> & -> & ->) | (-> & -> & ->)]].
    + cbn [app]. now constructor.
    + apply Permutation_sym, Permutation_cons_app, Permutation_sym. exact IH'.
    + apply Permutation_sym. rewrite app_assoc.
      apply Permutation_cons_app. rewrite <- app_assoc. now apply Permutation_sym.
  - intros idx Hin. rewrite !filter_In.
    destruct (H idx Hin) as [(-> & -> & ->) | [(-> & -> & ->) | (-> & -> & ->)]].
    + left. repeat split; auto; intros [_ ?]; discriminate.
    + right; left. repeat split; auto; intros [_ ?]; discriminate.
    + right; right. repeat split; auto; intros [_ ?]; discriminate.
Qed.

Lemma separate_loop_spec (prs : list Slide) (valid t c s : list Z) :
  (forallb (fun i => is_ok (loop_category prs i)) valid = true ->
   separate_loop prs valid t c s
   = Ok (t ++ filter (in_category prs Table) valid,
         c ++ filter (in_category prs Complex) valid,
         s ++ filter (in_category prs Simple) valid)%list) /\
  (forallb (fun i => is_ok (loop_category prs i)) valid = false ->
   exists e, separate_loop prs valid t c s = Raise e).
Proof.
  revert t c s. induction valid as [|i rest IH]; intros t c s.
  - cbn. rewrite !app_nil_r. split; [reflexivity | discriminate].
  - cbn [forallb filter separate_loop]. unfold in_category, loop_category.
    destruct (py_index slide_index_error prs (i - 1)) as [slide|e]; cbn [bind is_ok andb].
    2:{ split; [discriminate | intros _; now exists e]. }
    destruct (_is_complex_slide slide); cbn [is_ok andb Category_eqb].
    { destruct (IH t (c ++ [i])%list s) as [IH1 IH2]. split.
      - intros H. rewrite (IH1 H), <- app_assoc. reflexivity.
      - exact IH2. }
    destruct (table_and_textbox slide false false) as [[ht hx]|e]; cbn [bind is_ok andb].
    2:{ split; [discriminate | intros _; now exists e]. }
    destruct ht, hx; cbn [andb is_ok Category_eqb].
    + destruct (IH t (c ++ [i])%list s) as [IH1 IH2]. split.
      * intros H. rewrite (IH1 H), <- app_assoc. reflexivity.
      * exact IH2.
    + destruct (IH (t ++ [i])%list c s) as [IH1 IH2]. split.
      * intros H. rewrite (IH1 H), <- app_assoc. reflexivity.
      * exact IH2.
    + destruct (IH t c (s ++ [i])%list) as [IH1 IH2]. split.
      * intros H. rewrite (IH1 H), <- app_assoc. reflexivity.
      * exact IH2.
    + destruct (IH t c (s ++ [i])%list) as [IH1 IH2]. split.
      * intros H. rewrite (IH1 H), <- app_assoc. reflexivity.
      * exact IH2.
Qed.

Lemma separate_table_loop_spec (prs : list Slide) (valid t r : list Z) :
  (forallb (fun i => is_ok (loop_has_table prs i)) valid = true ->
   separate_table_loop prs valid t r
   = Ok (t ++ filter (table_flag prs true) valid,
         r ++ filter (table_flag prs false) valid)%list) /\
  (forallb (fun i => is_ok (loop_has_table prs i)) valid = false ->
   exists e, separate_table_loop prs valid t r = Raise e).
Proof.
  revert t r. induction valid as [|i rest IH]; intros t r.
  - cbn. rewrite !app_nil_r. split; [reflexivity | discriminate].
  - cbn [forallb filter separate_table_loop]. unfold table_flag, loop_has_table.
    destruct (py_index slide_index_error prs (i - 1)) as [slide|e]; cbn [bind is_ok andb].
    2:{ split; [discriminate | intros _; now exists e]. }
    destruct (find_table slide) as [[|]|e]; cbn [bind is_ok andb Bool.eqb].
    + destruct (IH (t ++ [i])%list r) as [IH1 IH2]. split.
      * intros H. rewrite (IH1 H), <- app_assoc. reflexivity.
      * exact IH2.
    + destruct (IH t (r ++ [i])%list) as [IH1 IH2]. split.
      * intros H. rewrite (IH1 H), <- app_assoc. reflexivity.
      * exact IH2.
    + split; [discriminate | intros _; now exists e].
Qed.

Lemma in_category_one_true (prs : list Slide) (i : Z) :
  is_ok (loop_category prs i) = true ->
  one_true (in_category prs Table i) (in_category prs Complex i) (in_category prs Simple i).
Proof.
  unfold in_category, one_true. destruct (loop_category prs i) as [[| |]|e]; cbn; intros H.
  - left; auto.
  - right; left; auto.
  - right; right; auto.
  - discriminate.
Qed.

Lemma table_flag_one_true (prs : list Slide) (i : Z) :
  is_ok (loop_has_table prs i) = true ->
  one_true (table_flag prs true i) false (table_flag prs false i).
Proof.
  unfold table_flag, one_true. destruct (loop_has_table prs i) as [[|]|e]; cbn; intros H.
  - left; auto.
  - right; right; auto.
  - discriminate.
Qed.

Lemma filter_false {A} (l : list A) : filter (fun _ => false) l = [].
Proof. induction l; auto. Qed.

Lemma filter_true {A} (l : list A) : filter (fun _ => true) l = l.
Proof. induction l; cbn; congruence. Qed.

(** The three shapes the result can take: the main path, the table
    separation of the fallback, and the fallback of the fallback. *)
Lemma separate_cases (env : Env) (valid : list Z) :
  exists p1 p2 p3,
    _separate_slides_by_complexity env valid
    = (filter p1 valid, filter p2 valid, filter p3 valid) /\
    forall i, In i valid -> one_true (p1 i) (p2 i) (p3 i).
Proof.
  assert (Last : exists p1 p2 p3 : Z -> bool,
    (@nil Z, @nil Z, valid) = (filter p1 valid, filter p2 valid, filter p3 valid) /\
    forall i, In i valid -> one_true (p1 i) (p2 i) (p3 i)).
  { exists (fun _ => false), (fun _ => false), (fun _ => true).
    rewrite !filter_false, filter_true. split; [reflexivity|].
    intros i _. right; right; auto. }
  assert (Fallback : forall prs, Presentation env = Ok prs -> exists p1 p2 p3 : Z -> bool,
    (let '(table_slides, regular_slides) := _separate_table_slides env valid in
     (table_slides, @nil Z, regular_slides))
    = (filter p1 valid, filter p2 valid, filter p3 valid) /\
    forall i, In i valid -> one_true (p1 i) (p2 i) (p3 i)).
  { intros prs Hp. unfold _separate_table_slides. rewrite Hp. cbn [bind].
    destruct (separate_table_loop_spec prs valid [] []) as [T1 T2].
    destruct (forallb (fun i => is_ok (loop_has_table prs i)) valid) eqn:E.
    - rewrite (T1 eq_refl). cbn [app].
      exists (table_flag prs true), (fun _ => false), (table_flag prs false).
      rewrite filter_false. split; [reflexivity|].
      intros i Hi. apply table_flag_one_true.
      rewrite forallb_forall in E. now apply E.
    - destruct (T2 eq_refl) as [e ->]. exact Last. }
  unfold _separate_slides_by_complexity.
  destruct (Presentation env) as [prs|e] eqn:Hp; cbn [bind].
  - destruct (separate_loop_spec prs valid [] [] []) as [S1 S2].
    destruct (forallb (fun i => is_ok (loop_category prs i)) valid) eqn:E.
    + rewrite (S1 eq_refl). cbn [app].
      exists (in_category prs Table), (in_category prs Complex), (in_category prs Simple).
      split; [reflexivity|]. intros i Hi. apply in_category_one_true.
      rewrite forallb_forall in E. now apply E.
    + destruct (S2 eq_refl) as [e ->]. now apply (Fallback prs).
  - unfold _separate_table_slides. rewrite Hp. cbn [bind]. exact Last.
Qed.

(** C1.  For every environment and every list of slide indices, the three
    lists returned by the classification, put together, are a rearrangement
    of the input list (nothing omitted, nothing added), and every input
    index lies in exactly one of them; this holds on the main path and on
    both fallback paths. *)
Theorem separate_is_partition (env : Env) (valid_slides : list Z) :
  let '(table_slides, complex_slides, simple_slides) :=
    _separate_slides_by_complexity env valid_slides in
  Permutation (table_slides ++ complex_slides ++ simple_slides) valid_slides /\
  exactly_one valid_slides table_slides complex_slides simple_slides.
Proof.
  destruct (separate_cases env valid_slides) as (p1 & p2 & p3 & -> & H).
  now apply partition_by.
Qed.

(** ** Slide classifier: the two steps *)

Lemma shape_types_spec (l : list Shape) :
  (forallb readable l = true -> shape_types l = Ok (map type_of l)) /\
  (forallb readable l = false -> exists e, shape_types l = Raise e).
Proof.
  induction l as [|shape rest [IH1 IH2]].
  - cbn. split; [reflexivity | discriminate].
  - cbn [forallb shape_types map]. unfold readable at 1 3, type_of at 1.
    destruct (shape_type shape) as [ty|e]; cbn [bind andb].
    + split; intros H.
      * now rewrite (IH1 H).
      * destruct (IH2 H) as [e ->]. now exists e.
    + split; [discriminate | intros _; now exists e].
Qed.

Lemma simple_text_rectangle_eq (shape : Shape) :
  simple_text_rectangle shape = text_rectangle shape.
Proof.
  unfold simple_text_rectangle, text_rectangle, stripped_text.
  destruct (text shape) as [t|]; [|reflexivity].
  destruct (truthy (strip t)) eqn:E; [reflexivity|].
  cbn [andb]. reflexivity.
Qed.

Lemma visual_graphics_spec (l : list Shape) :
  forallb readable l = true ->
  visual_graphics l = Ok (filter is_visual_graphic l).
Proof.
  induction l as [|shape rest IH]; [reflexivity|].
  cbn [forallb visual_graphics filter]. unfold readable at 1, is_visual_graphic at 1, has_type.
  rewrite simple_text_rectangle_eq.
  destruct (shape_type shape) as [ty|e]; cbn [andb]; [|discriminate].
  intros H. rewrite (IH H). cbn [bind].
  destruct (ty =? PICTURE) eqn:E1; [reflexivity|].
  destruct (ty =? LINE) eqn:E2; [reflexivity|].
  destruct (ty =? AUTO_SHAPE) eqn:E3; [|reflexivity].
  cbn [orb andb]. now destruct (negb (text_rectangle shape)).
Qed.

Lemma count_types (x : Z) (l : list Shape) :
  forallb readable l = true ->
  count x (map type_of l) = Z.of_nat (List.length (filter (has_type x) l)).
Proof.
  unfold count. intros H. f_equal. induction l as [|shape rest IH]; [reflexivity|].
  cbn [forallb] in H. apply andb_true_iff in H. destruct H as [H1 H2].
  cbn [map filter]. unfold has_type at 1, type_of at 1. unfold readable in H1.
  destruct (shape_type shape) as [ty|e]; [|discriminate].
  destruct (ty =? x); cbn [List.length]; now rewrite (IH H2).
Qed.

Lemma existsb_In {A} (f : A -> bool) (l : list A) :
  existsb f l = true <-> exists x, In x l /\ f x = true.
Proof. apply existsb_exists. Qed.

Lemma is_complex_body_spec (slide : Slide) :
  forallb readable (content_objects slide) = true ->
  exists b, is_complex_body slide = Ok b /\ (b = true <-> complex_rule slide).
Proof.
  intros H. unfold is_complex_body.
  rewrite (proj1 (shape_types_spec _) H). cbn [bind].
  rewrite (visual_graphics_spec _ H). cbn [bind].
  eexists. split; [reflexivity|].
  rewrite !count_types by exact H. rewrite length_map.
  unfold complex_rule. cbv zeta.
  rewrite !orb_true_iff, andb_true_iff, !Z.ltb_lt, !existsb_In.
  assert (Hs : forall shape, is_some (shapes shape) = true <-> shapes shape <> None).
  { intros shape. destruct (shapes shape); cbn; split; congruence. }
  split.
  - intros [[[[[H1 | H1] | H1] | H1] | H1] | [H1 H2]].
    + left. lia.
    + right; left. lia.
    + right; right; left. exact H1.
    + right; right; right; left. destruct H1 as (sh & Hin & Hg). exists sh. split; [exact Hin|]. now apply Hs.
    + right; right; right; right; left. lia.
    + right; right; right; right; right. lia.
  - intros [H1 | [H1 | [H1 | [H1 | [H1 | [H1 H2]]]]]].
    + left; left; left; left; left. lia.
    + left; left; left; left; right. lia.
    + left; left; left; right. exact H1.
    + left; left; right. destruct H1 as (sh & Hin & Hg). exists sh. split; [exact Hin|]. now apply Hs.
    + left; right. lia.
    + right. lia.
Qed.

(** C2, as the code has it.  The complexity test answers Complex exactly
    when the type of every content shape can be read and the rule of the
    design holds over the content shapes (names compared in lower case,
    text measured after stripping); when the type of some content shape
    cannot be read, the analysis fails and the answer is not Complex. *)
Theorem is_complex_iff_rule (slide : Slide) :
  _is_complex_slide slide = true <->
  forallb readable (content_objects slide) = true /\ complex_rule slide.
Proof.
  unfold _is_complex_slide.
  destruct (forallb readable (content_objects slide)) eqn:E.
  - destruct (is_complex_body_spec slide E) as (b & -> & Hb).
    rewrite Hb. tauto.
  - unfold is_complex_body.
    destruct (proj2 (shape_types_spec _) E) as [e ->]. cbn [bind].
    split; [discriminate | intros [? _]; discriminate].
Qed.

(** C2 as stated fails: a slide of seven shapes of unrecognised type has
    more than six content shapes, yet the test answers not Complex. *)
Lemma is_complex_not_rule_alone :
  ~ (forall slide, _is_complex_slide slide = true <-> complex_rule slide).
Proof.
  intros H.
  specialize (H (repeat (unrecognised "Content 1") 7)).
  assert (C : complex_rule (repeat (unrecognised "Content 1") 7)).
  { left. vm_compute. lia. }
  apply H in C. vm_compute in C. discriminate.
Qed.






Lemma filter_removes_iff_pattern_witness :
  let prs := [[text_box "Title 1" "Roadmap"]; [text_box "Title 1" "Thank You"]] in
  Presentation (sample_env prs) = Ok prs /\
  exists valid_slides removed_slides,
    _filter_useless_slides (sample_env prs) = Ok (valid_slides, removed_slides) /\
    forall idx,
      (In idx removed_slides <->
       exists slide, slide_at prs idx = Some slide /\ matches_pattern slide) /\
      (In idx valid_slides <->
       exists slide, slide_at prs idx = Some slide /\ ~ matches_pattern slide).
Proof.
  cbv zeta. split; [reflexivity|].
  apply (filter_removes_iff_pattern (sample_env _) _ eq_refl).
Defined.

Lemma no_pattern_in_roadmap :
  ~ matches_pattern (filter has_text_attribute
                       [text_box "Title 1" "Roadmap"; table_shape "Table 2" [["thank you"]]]).
Proof.
  intros H. apply skips_spec in H. vm_compute in H. discriminate.
Qed.

Lemma filter_ignores_table_cells_witness :
  let slide := [text_box "Title 1" "Roadmap"; table_shape "Table 2" [["thank you"]]] in
  let prs := [map (with_table table) slide] in
  Presentation (sample_env prs) = Ok prs /\
  slide_at prs 1 = Some (map (with_table table) slide) /\
  ~ matches_pattern (filter has_text_attribute slide) /\
  exists valid_slides removed_slides,
    _filter_useless_slides (sample_env prs) = Ok (valid_slides, removed_slides) /\
    In 1 valid_slides /\ ~ In 1 removed_slides.
Proof.
  cbv zeta. split; [reflexivity|]. split; [reflexivity|].
  split; [exact no_pattern_in_roadmap|].
  apply (filter_ignores_table_cells
           (sample_env [map (with_table table)
                          [text_box "Title 1" "Roadmap"; table_shape "Table 2" [["thank you"]]]])
           [map (with_table table)
              [text_box "Title 1" "Roadmap"; table_shape "Table 2" [["thank you"]]]]
           1 [text_box "Title 1" "Roadmap"; table_shape "Table 2" [["thank you"]]]
           table eq_refl eq_refl no_pattern_in_roadmap).
Defined.

(** ** Titles *)

Lemma title_from_lines_find (lines : list string) :
  title_from_lines lines
  = option_map (fun line => take 80 (strip (remove_chars marker line)))
               (find title_line (map strip lines)).
Proof.
  induction lines as [|l rest IH]; [reflexivity|].
  cbn [title_from_lines map find]. unfold title_line at 1.
  destruct (truthy (strip l) && negb (startswith "!" (strip l)) && (len (strip l) <? 100));
    cbn [andb]; [|exact IH].
  destruct (truthy (strip (remove_chars marker (strip l)))); [reflexivity | exact IH].
Qed.

Lemma length_take (n : nat) (s : string) : (String.length (take n s) <= n)%nat.
Proof.
  revert s. induction n as [|n IH]; intros s; [cbn; lia|].
  destruct s as [|c s]; cbn; [lia|]. specialize (IH s). lia.
Qed.

Lemma length_append (a b : string) :
  String.length (a ++ b) = (String.length a + String.length b)%nat.
Proof. induction a; cbn; congruence. Qed.

(** C8, as the code has it.  The title is taken from the first line that,
    once stripped, is non-empty, does not start with an exclamation mark,
    has fewer than 100 characters and is still non-empty after the marker
    characters are removed; it is that line without its markers, cut at 80
    characters.  Without such a line the title is the content without
    markers and exclamation marks: whole when it has at most 50 characters,
    else its first 50 characters followed by three dots.  The title never
    exceeds 80 characters. *)
Theorem title_is_derived (section : string) :
  _extract_title_from_section section = derived_title section /\
  len (_extract_title_from_section section) <= 80.
Proof.
  assert (E : _extract_title_from_section section = derived_title section).
  { unfold _extract_title_from_section, derived_title.
    rewrite title_from_lines_find.
    now destruct (find title_line (map strip (split nl section))). }
  split; [exact E|]. rewrite E. unfold derived_title, len.
  destruct (find title_line (map strip (split nl section))) as [line|].
  - pose proof (length_take 80 (strip (remove_chars marker line))). lia.
  - cbv zeta. destruct (50 <? _) eqn:L.
    + rewrite length_append.
      pose proof (length_take 50 (strip (remove_chars marker_or_bang section))).
      cbn [String.length]. lia.
    + apply Z.ltb_ge in L. unfold len in L. lia.
Qed.

(** C8 as stated fails: a first line made of markers only is passed over
    instead of giving an empty title. *)
Lemma title_not_as_claimed :
  ~ (forall section, _extract_title_from_section section = claimed_title section).
Proof.
  intros H. specialize (H ("---" ++ nl ++ "Hello")). vm_compute in H. discriminate.
Qed.

(** Two more departures from the wording: a line starting with an
    exclamation mark is passed over, and the fallback appends three dots. *)
Example title_skips_image_line :
  _extract_title_from_section ("!logo" ++ nl ++ "Agenda") = "Agenda" /\
  claimed_title ("!logo" ++ nl ++ "Agenda") = "!logo".
Proof. split; reflexivity. Qed.

Example title_fallback_has_dots :
  let section := String.concat EmptyString (repeat "0123456789" 12) in
  _extract_title_from_section section = take 50 section ++ "..." /\
  claimed_title section = take 50 section.
Proof. split; reflexivity. Qed.

(** ** Dictionaries *)

Lemma dict_get_set_eq {V} (d : dict V) (k : Z) (v : V) :
  dict_get (dict_set d k v) k = Some v.
Proof.
  induction d as [|[k' v'] rest IH]; cbn.
  - now rewrite Z.eqb_refl.
  - destruct (k' =? k) eqn:E; cbn; [now rewrite Z.eqb_refl | now rewrite E].
Qed.

Lemma dict_get_set_ne {V} (d : dict V) (k k0 : Z) (v : V) :
  k <> k0 -> dict_get (dict_set d k v) k0 = dict_get d k0.
Proof.
  intros Hne. induction d as [|[k' v'] rest IH]; cbn.
  - destruct (k =? k0) eqn:E; [apply Z.eqb_eq in E; contradiction | reflexivity].
  - destruct (k' =? k) eqn:E; cbn.
    + apply Z.eqb_eq in E. subst k'.
      destruct (k =? k0) eqn:E'; [apply Z.eqb_eq in E'; contradiction | reflexivity].
    + now rewrite IH.
Qed.

Lemma keys_dict_set {V} (d : dict V) (k k0 : Z) (v : V) :
  In k0 (keys (dict_set d k v)) <-> k0 = k \/ In k0 (keys d).
Proof.
  unfold keys. induction d as [|[k' v'] rest IH]; cbn.
  - intuition.
  - destruct (k' =? k) eqn:E; cbn.
    + apply Z.eqb_eq in E. subst k'. intuition.
    + rewrite IH. intuition.
Qed.

Lemma NoDup_keys_dict_set {V} (d : dict V) (k : Z) (v : V) :
  NoDup (keys d) -> NoDup (keys (dict_set d k v)).
Proof.
  induction d as [|[k' v'] rest IH]; cbn; intros H.
  - constructor; [intros [] | constructor].
  - inversion H as [|? ? Hnotin Hrest]; subst.
    destruct (k' =? k) eqn:E; cbn.
    + apply Z.eqb_eq in E. subst k'. now constructor.
    + constructor; [|now apply IH].
      intros Hin. apply keys_dict_set in Hin. destruct Hin as [-> | Hin].
      * rewrite Z.eqb_refl in E. discriminate.
      * contradiction.
Qed.

Lemma Forall_dict_set {V} (P : Z * V -> Prop) (d : dict V) (k : Z) (v : V) :
  Forall P d -> P (k, v) -> Forall P (dict_set d k v).
Proof.
  intros Hd Hk. induction d as [|[k' v'] rest IH]; cbn.
  - now constructor.
  - inversion Hd; subst. destruct (k' =? k); constructor; auto.
Qed.

Lemma dict_get_In {V} (d : dict V) (k : Z) :
  In k (keys d) -> exists v, dict_get d k = Some v /\ In (k, v) d.
Proof.
  unfold keys. induction d as [|[k' v'] rest IH]; cbn; [tauto|].
  intros H. destruct (k' =? k) eqn:E.
  - apply Z.eqb_eq in E. subst k'. exists v'. auto.
  - destruct H as [-> | H]; [rewrite Z.eqb_refl in E; discriminate|].
    destruct (IH H) as (v & Hv & Hin). exists v. auto.
Qed.

Lemma dict_fill_inv {V} (entry : Z -> exc V) (l : list Z) (d d' : dict V) :
  dict_fill entry l d = Ok d' ->
  (NoDup (keys d) -> NoDup (keys d')) /\
  (forall k, In k (keys d') <-> In k l \/ In k (keys d)) /\
  (forall P : Z * V -> Prop,
      Forall P d -> (forall i v, entry i = Ok v -> P (i, v)) -> Forall P d') /\
  (forall k v, entry k = Ok v -> In k l \/ dict_get d k = Some v ->
               dict_get d' k = Some v).
Proof.
  revert d. induction l as [|i rest IH]; intros d H; cbn in H.
  - injection H as <-. split; [auto|]. split; [cbn; tauto|]. split; [auto|].
    intros k v _ [[] | Hk]. exact Hk.
  - destruct (entry i) as [v|e] eqn:Ei; cbn in H; [|discriminate].
    destruct (IH _ H) as (I1 & I2 & I3 & I4).
    split; [|split; [|split]].
    + intros Hd. apply I1. now apply NoDup_keys_dict_set.
    + intros k. rewrite I2, keys_dict_set. cbn. intuition.
    + intros P Hd Hp. apply I3; [|exact Hp]. apply Forall_dict_set; auto.
    + intros k v0 Hk Hor. apply I4; [exact Hk|].
      destruct (Z.eq_dec i k) as [-> | Hne].
      * right. rewrite dict_get_set_eq. congruence.
      * destruct Hor as [[Heq | Hin] | Hget]; [contradiction | now left |].
        right. now rewrite dict_get_set_ne.
Qed.

Lemma dict_fill_ok {V} (entry : Z -> exc V) (l : list Z) (d : dict V) :
  (forall i, In i l -> is_ok (entry i) = true) ->
  exists d', dict_fill entry l d = Ok d'.
Proof.
  revert d. induction l as [|i rest IH]; intros d H; cbn.
  - now exists d.
  - assert (Hi := H i (or_introl eq_refl)).
    destruct (entry i) as [v|e]; [|discriminate]. cbn.
    apply IH. intros j Hj. apply H. now right.
Qed.

Lemma complex_slides_loop_fill (env : Env) (prs : list Slide) (l : list Z) (d : dict string) :
  complex_slides_loop env prs l d = dict_fill (complex_entry env prs) l d.
Proof.
  revert d. induction l as [|i rest IH]; intros d; [reflexivity|].
  cbn [complex_slides_loop dict_fill]. unfold complex_entry at 1.
  destruct (py_index slide_index_error prs (i - 1)) as [slide|e]; cbn [bind]; [|reflexivity].
  destruct (shape_types slide) as [tys|e]; cbn [bind]; [apply IH | reflexivity].
Qed.

Lemma table_slides_loop_fill (env : Env) (prs : list Slide) (l : list Z) (d : dict TableInfo) :
  table_slides_loop env prs l d = dict_fill (table_entry env prs) l d.
Proof.
  revert d. induction l as [|i rest IH]; intros d; [reflexivity|].
  cbn [table_slides_loop dict_fill]. unfold table_entry at 1.
  destruct (py_index slide_index_error prs (i - 1)) as [slide|e]; cbn [bind]; [apply IH | reflexivity].
Qed.

(** ** Extraction router: rendering failures *)

Lemma convert_on_render_failure (env : Env) (slide : Slide) (idx : Z) (source_file : string) :
  render_failed env idx ->
  _convert_slide_to_image_and_process env slide idx source_file
  = if truthy (strip (_extract_text_from_slide slide))
    then text_only_fallback idx (_extract_text_from_slide slide)
    else no_content_placeholder idx.
Proof.
  intros (image_path & He & Hf). unfold _convert_slide_to_image_and_process.
  now rewrite He, Hf.
Qed.

(** When the exporter itself raises, the handler of the function answers
    with an error string for that slide. *)
Lemma convert_on_export_exception (env : Env) (slide : Slide) (idx : Z)
    (source_file : string) (e : exn) :
  export_slide_as_image env idx = Raise e ->
  _convert_slide_to_image_and_process env slide idx source_file
  = "[Error processing slide " ++ str_of_Z idx ++ ": " ++ exn_msg e ++ "]".
Proof. intros He. unfold _convert_slide_to_image_and_process. now rewrite He. Qed.

Lemma fallback_has_marker (idx : Z) (slide_text : string) :
  contains "(text-only fallback)" (text_only_fallback idx slide_text) = true /\
  contains slide_text (text_only_fallback idx slide_text) = true.
Proof.
  unfold text_only_fallback. split; apply contains_spec.
  - exists ("**Slide " ++ str_of_Z idx ++ " Content "),
           (":**" ++ nl ++ slide_text ++ nl ++ nl
            ++ "*Note: Image processing failed, using text extraction only*").
    change (" Content (text-only fallback):**")
      with (" Content " ++ "(text-only fallback)" ++ ":**").
    now rewrite !append_assoc.
  - exists ("**Slide " ++ str_of_Z idx ++ " Content (text-only fallback):**" ++ nl),
           (nl ++ nl ++ "*Note: Image processing failed, using text extraction only*").
    now rewrite !append_assoc.
Qed.

Lemma placeholder_names_slide (idx : Z) :
  contains ("Slide " ++ str_of_Z idx ++ ": Image processing failed")
           (no_content_placeholder idx) = true.
Proof.
  unfold no_content_placeholder. apply contains_spec.
  exists "[", " and no text content available]".
  change ("[Slide ") with ("[" ++ "Slide ").
  change (": Image processing failed and no text content available]")
    with (": Image processing failed" ++ " and no text content available]").
  now rewrite !append_assoc.
Qed.

Lemma complex_batch_entry (env : Env) (prs : list Slide) (slides : list Z)
    (idx : Z) (slide : Slide) :
  Presentation env = Ok prs ->
  Forall (classifiable prs) slides ->
  In idx slides ->
  py_index slide_index_error prs (idx - 1) = Ok slide ->
  dict_get (_process_complex_slides_with_gemini env slides) idx
  = Some (slide_header (file_name env) idx
          ++ _convert_slide_to_image_and_process env slide idx (file_name env)).
Proof.
  intros Hp Hall Hin Hs. rewrite Forall_forall in Hall.
  assert (Hentry : forall i sl, py_index slide_index_error prs (i - 1) = Ok sl ->
                     forallb readable sl = true ->
                     complex_entry env prs i
                     = Ok (slide_header (file_name env) i
                           ++ _convert_slide_to_image_and_process env sl i (file_name env))).
  { intros i sl Hi Hr. unfold complex_entry. rewrite Hi. cbn [bind].
    now rewrite (proj1 (shape_types_spec sl) Hr). }
  unfold _process_complex_slides_with_gemini.
  assert (Hne : nonempty slides = true) by (destruct slides; [destruct Hin | reflexivity]).
  rewrite Hne, Hp. cbn [bind]. rewrite complex_slides_loop_fill.
  destruct (dict_fill_ok (complex_entry env prs) slides []) as [d' Hd'].
  { intros i Hi. destruct (Hall i Hi) as (sl & Hsl & Hr).
    now rewrite (Hentry i sl Hsl Hr). }
  rewrite Hd'. destruct (dict_fill_inv _ _ _ _ Hd') as (_ & _ & _ & I4).
  apply I4; [|now left].
  destruct (Hall idx Hin) as (sl & Hsl & Hr).
  assert (sl = slide) by congruence. subst sl. now apply Hentry.
Qed.

Lemma table_batch_entry (env : Env) (prs : list Slide) (slides : list Z)
    (idx : Z) (slide : Slide) :
  Presentation env = Ok prs ->
  Forall (classifiable prs) slides ->
  In idx slides ->
  py_index slide_index_error prs (idx - 1) = Ok slide ->
  dict_get (_process_table_slides env slides) idx
  = Some (mkTableInfo idx
            (_convert_slide_to_image_and_process env slide idx (file_name env))
            (_extract_text_from_slide slide)).
Proof.
  intros Hp Hall Hin Hs. rewrite Forall_forall in Hall.
  unfold _process_table_slides.
  assert (Hne : nonempty slides = true) by (destruct slides; [destruct Hin | reflexivity]).
  rewrite Hne, Hp. cbn [bind]. rewrite table_slides_loop_fill.
  destruct (dict_fill_ok (table_entry env prs) slides []) as [d' Hd'].
  { intros i Hi. destruct (Hall i Hi) as (sl & Hsl & Hr).
    unfold table_entry. now rewrite Hsl. }
  rewrite Hd'. destruct (dict_fill_inv _ _ _ _ Hd') as (_ & _ & _ & I4).
  apply I4; [|now left]. unfold table_entry. now rewrite Hs.
Qed.

(** C9.  Let a batch of slides be routed through the image-based strategy,
    each listed index having a slide whose shape types can be read, and let
    rendering fail for the slide of index [idx].  Then the output for that
    slide is, when its extracted text is non-empty, the raw text wrapped
    with the "(text-only fallback)" marker, and otherwise a placeholder
    saying that image processing failed and naming the slide index.  In
    both cases every slide of the batch, the failed one included, still has
    its entry in the result of the complex strategy and of the table
    strategy. *)
Theorem render_failure_falls_back (env : Env) (prs : list Slide) (slides : list Z)
    (idx : Z) (slide : Slide) :
  Presentation env = Ok prs ->
  Forall (classifiable prs) slides ->
  In idx slides ->
  py_index slide_index_error prs (idx - 1) = Ok slide ->
  render_failed env idx ->
  let slide_text := _extract_text_from_slide slide in
  let output := _convert_slide_to_image_and_process env slide idx (file_name env) in
  (if truthy (strip slide_text)
   then output = text_only_fallback idx slide_text /\
        contains "(text-only fallback)" output = true /\
        contains slide_text output = true
   else output = no_content_placeholder idx /\
        contains ("Slide " ++ str_of_Z idx ++ ": Image processing failed") output = true) /\
  forall other other_slide,
    In other slides ->
    py_index slide_index_error prs (other - 1) = Ok other_slide ->
    dict_get (_process_complex_slides_with_gemini env slides) other
    = Some (slide_header (file_name env) other
            ++ _convert_slide_to_image_and_process env other_slide other (file_name env)) /\
    dict_get (_process_table_slides env slides) other
    = Some (mkTableInfo other
              (_convert_slide_to_image_and_process env other_slide other (file_name env))
              (_extract_text_from_slide other_slide)).
Proof.
  intros Hp Hall Hin Hs Hf. cbv zeta. split.
  - rewrite (convert_on_render_failure _ _ _ _ Hf).
    destruct (truthy (strip (_extract_text_from_slide slide))).
    + split; [reflexivity | apply fallback_has_marker].
    + split; [reflexivity | apply placeholder_names_slide].
  - intros other other_slide Ho Hos. split.
    + now apply (complex_batch_entry env prs).
    + now apply (table_batch_entry env prs).
Qed.

Lemma render_failure_falls_back_witness :
  let slide := [text_box "TextBox 1" "Q1 Results"; table_shape "Table 2" [["a"; "b"]]] in
  let env := sample_env [slide] in
  Presentation env = Ok [slide] /\
  Forall (classifiable [slide]) [1] /\
  In 1 [1] /\
  py_index slide_index_error [slide] (1 - 1) = Ok slide /\
  render_failed env 1 /\
  _convert_slide_to_image_and_process env slide 1 (file_name env)
  = text_only_fallback 1 (_extract_text_from_slide slide).
Proof.
  cbv zeta.
  assert (H1 : Forall (classifiable [[text_box "TextBox 1" "Q1 Results";
                                      table_shape "Table 2" [["a"; "b"]]]]) [1]).
  { constructor; [|constructor]. eexists. split; reflexivity. }
  assert (H2 : In 1 [1]) by (left; reflexivity).
  assert (H3 : render_failed
                 (sample_env [[text_box "TextBox 1" "Q1 Results";
                               table_shape "Table 2" [["a"; "b"]]]]) 1).
  { exists EmptyString. split; reflexivity. }
  split; [reflexivity|]. split; [exact H1|]. split; [exact H2|].
  split; [reflexivity|]. split; [exact H3|].
  exact (proj1 (proj1 (render_failure_falls_back (sample_env _) _ [1] 1 _
                         eq_refl H1 H2 eq_refl H3))).
Defined.

(** ** Result merger: the record list *)

Lemma sections_loop_length (current_time source_file : string) (i : Z) (pages : list string) :
  List.length (sections_loop current_time source_file i pages)
  = List.length (filter (fun page => truthy (strip page) && (50 <? len (strip page))) pages).
Proof.
  revert i. induction pages as [|page rest IH]; intros i; [reflexivity|].
  cbn [sections_loop filter].
  destruct (truthy (strip page) && (50 <? len (strip page))); cbn [List.length]; now rewrite IH.
Qed.

Lemma sections_length (env : Env) (markdown_content source_file : string) :
  List.length (if truthy markdown_content
               then _extract_sections_from_markdown env markdown_content source_file
               else [])
  = List.length (substantial_blocks markdown_content).
Proof.
  destruct markdown_content as [|c rest]; [reflexivity|].
  cbn [truthy is_empty negb]. apply sections_loop_length.
Qed.

(** C6, as the code has it.  When the merge completes, the flat record list
    is made of one record for each block of the simple text that is
    separated by blank lines and has more than 50 characters once stripped,
    then one record for each complex slide description, then one for each
    table slide, the last two kinds naming their slide as source.  Its
    length is the sum of the three counts, hence at least the number of
    complex and table slides processed; a simple slide whose blocks have 50
    characters or fewer adds nothing. *)
Theorem record_count (env : Env) (markdown_content : string)
    (processed_tables : dict TableInfo) (source_file : string)
    (raw_ocr_path : option string) (complex_slide_descriptions : dict string)
    (r : CombinedResult) :
  _process_csvs_and_combine_results env markdown_content processed_tables
    source_file raw_ocr_path complex_slide_descriptions = Combined r ->
  exists simple_records,
    markdown_data r
    = (simple_records
       ++ complex_records (now_isoformat env) source_file complex_slide_descriptions
       ++ table_records (now_isoformat env) source_file processed_tables)%list /\
    List.length simple_records = List.length (substantial_blocks markdown_content) /\
    map source (complex_records (now_isoformat env) source_file complex_slide_descriptions)
    = map (slide_source source_file) (keys complex_slide_descriptions) /\
    map source (table_records (now_isoformat env) source_file processed_tables)
    = map (slide_source source_file) (keys processed_tables) /\
    List.length (markdown_data r)
    = (List.length (substantial_blocks markdown_content)
       + List.length complex_slide_descriptions + List.length processed_tables)%nat /\
    total_markdown_entries r = Z.of_nat (List.length (markdown_data r)).
Proof.
  unfold _process_csvs_and_combine_results, combine_body. intros H.
  destruct (build_enhanced_markdown _ _ _ _) as [md|e]; cbn [bind] in H; [|discriminate].
  destruct (write_file env _ _) as [u|e]; cbn [bind] in H; [|discriminate].
  injection H as <-. cbn [markdown_data total_markdown_entries].
  eexists. split; [reflexivity|].
  split; [apply sections_length|].
  split. { unfold complex_records, keys. rewrite !map_map. apply map_ext. now intros [k v]. }
  split. { unfold table_records, keys. rewrite !map_map. apply map_ext. now intros [k v]. }
  split; [|reflexivity].
  rewrite !length_app, sections_length. unfold complex_records, table_records.
  rewrite !length_map. lia.
Qed.

Lemma record_count_witness :
  let env := sample_env [[text_box "Title 1" "Hello"]] in
  exists r,
    _process_csvs_and_combine_results env EmptyString [] "deck.pptx" None
      [(2, "## deck.pptx:slide-2")] = Combined r /\
    List.length (markdown_data r) = 1%nat.
Proof.
  cbv zeta. eexists. split; [reflexivity|].
  destruct (record_count (sample_env [[text_box "Title 1" "Hello"]]) EmptyString []
              "deck.pptx" None [(2, "## deck.pptx:slide-2")] _ eq_refl)
    as (recs & _ & _ & _ & _ & H & _).
  exact H.
Defined.

(** C6 as stated fails: a simple slide whose only text is "Hello" gives
    non-empty extracted text and no record. *)
Lemma record_count_below_claim :
  ~ (forall env simple_slides processed_tables complex_slide_descriptions r,
        _process_csvs_and_combine_results env
          (_process_simple_slides_with_text_extraction env simple_slides)
          processed_tables (file_name env) None complex_slide_descriptions = Combined r ->
        (List.length (slides_with_text env simple_slides)
         + List.length complex_slide_descriptions + List.length processed_tables
         <= List.length (markdown_data r))%nat).
Proof.
  intros H.
  specialize (H (sample_env [[text_box "Title 1" "Hello"]]) [1] [] [] _ eq_refl).
  vm_compute in H. lia.
Qed.

(** ** The whole workflow: errors *)




(** ** Order *)

Lemma select_sorted (b : bool) (slides : list Slide) (i : Z) :
  StronglySorted Z.lt (select b i slides) /\ Forall (fun x => i <= x) (select b i slides).
Proof.
  revert i. induction slides as [|slide rest IH]; intros i.
  - split; constructor.
  - destruct (IH (i + 1)) as [IH1 IH2]. cbn [select].
    assert (Hlt : Forall (Z.lt i) (select b (i + 1) rest)).
    { eapply Forall_impl; [|exact IH2]. cbn. intros; lia. }
    assert (Hle : Forall (fun x => i <= x) (select b (i + 1) rest)).
    { eapply Forall_impl; [|exact IH2]. cbn. intros; lia. }
    destruct (Bool.eqb (skips slide) b).
    + split; constructor; auto; lia.
    + split; auto.
Qed.

Lemma range_from_sorted (n : nat) (i : Z) :
  StronglySorted Z.lt (range_from i n) /\ Forall (fun x => i <= x) (range_from i n).
Proof.
  revert i. induction n as [|n IH]; intros i; cbn [range_from].
  - split; constructor.
  - destruct (IH (i + 1)) as [IH1 IH2].
    split; constructor; auto; try lia.
    + eapply Forall_impl; [|exact IH2]. cbn. intros; lia.
    + eapply Forall_impl; [|exact IH2]. cbn. intros; lia.
Qed.

Lemma sorted_filter {A} (R : A -> A -> Prop) (p : A -> bool) (l : list A) :
  StronglySorted R l -> StronglySorted R (filter p l).
Proof.
  induction 1 as [|a l Hl IH Ha]; cbn; [constructor|].
  destruct (p a); [|exact IH]. constructor; [exact IH|].
  rewrite Forall_forall in *. intros x Hx. apply filter_In in Hx. now apply Ha.
Qed.

Lemma in_insert_sorted (x y : Z) (l : list Z) :
  In y (insert_sorted x l) <-> y = x \/ In y l.
Proof.
  induction l as [|z rest IH]; cbn.
  - intuition.
  - destruct (x <=? z); cbn; [intuition | rewrite IH; intuition].
Qed.

Lemma in_sorted (y : Z) (l : list Z) : In y (sorted l) <-> In y l.
Proof.
  induction l as [|x rest IH]; cbn; [tauto|].
  rewrite in_insert_sorted, IH. intuition.
Qed.





(** ** Result merger: the sections of the merged document *)



Lemma fallback_loop_entries (env : Env) (prs : list Slide) (l : list Z) (acc : list string) :
  fallback_loop env prs l acc
  = (acc ++ map (entry_text (file_name env)) (simple_entries prs l))%list.
Proof.
  revert acc. induction l as [|i rest IH]; intros acc.
  - cbn. now rewrite app_nil_r.
  - cbn [fallback_loop]. unfold simple_entries in *. cbn [flat_map].
    destruct (py_index slide_index_error prs (i - 1)) as [slide|e].
    + destruct (nonempty (simple_slide_text slide)).
      * rewrite IH, <- app_assoc. reflexivity.
      * apply IH.
    + apply IH.
Qed.







Lemma process_complex_inv (env : Env) (complex_slides : list Z) :
  NoDup (keys (_process_complex_slides_with_gemini env complex_slides)) /\
  Forall (headed (file_name env)) (_process_complex_slides_with_gemini env complex_slides) /\
  forall k, In k (keys (_process_complex_slides_with_gemini env complex_slides)) ->
            In k complex_slides.
Proof.
  assert (Empty : NoDup (@keys string []) /\ Forall (headed (file_name env)) [] /\
                  forall k, In k (@keys string []) -> In k complex_slides).
  { split; [constructor|]. split; [constructor|]. intros k []. }
  unfold _process_complex_slides_with_gemini.
  destruct (nonempty complex_slides); [|exact Empty].
  destruct (Presentation env) as [prs|e]; cbn [bind]; [|exact Empty].
  rewrite complex_slides_loop_fill.
  destruct (dict_fill (complex_entry env prs) complex_slides []) as [d|e] eqn:Hd;
    [|exact Empty].
  destruct (dict_fill_inv _ _ _ _ Hd) as (I1 & I2 & I3 & _).
  split; [apply I1; constructor|]. split.
  - apply I3; [constructor|]. intros i v Hv. unfold complex_entry in Hv.
    destruct (py_index slide_index_error prs (i - 1)) as [slide|e]; cbn [bind] in Hv;
      [|discriminate].
    destruct (shape_types slide); cbn [bind] in Hv; [|discriminate].
    injection Hv as <-. eexists. reflexivity.
  - intros k Hk. apply I2 in Hk. destruct Hk as [Hk | []]. exact Hk.
Qed.

Lemma process_table_inv (env : Env) (table_slides : list Z) :
  NoDup (keys (_process_table_slides env table_slides)) /\
  forall k, In k (keys (_process_table_slides env table_slides)) -> In k table_slides.
Proof.
  assert (Empty : NoDup (@keys TableInfo []) /\
                  forall k, In k (@keys TableInfo []) -> In k table_slides).
  { split; [constructor|]. intros k []. }
  unfold _process_table_slides.
  destruct (nonempty table_slides); [|exact Empty].
  destruct (Presentation env) as [prs|e]; cbn [bind]; [|exact Empty].
  rewrite table_slides_loop_fill.
  destruct (dict_fill (table_entry env prs) table_slides []) as [d|e] eqn:Hd;
    [|exact Empty].
  destruct (dict_fill_inv _ _ _ _ Hd) as (I1 & I2 & _ & _).
  split; [apply I1; constructor|].
  intros k Hk. apply I2 in Hk. destruct Hk as [Hk | []]. exact Hk.
Qed.

Lemma keys_dict_set_fresh {V} (d : dict V) (k : Z) (v : V) :
  ~ In k (keys d) -> keys (dict_set d k v) = (keys d ++ [k])%list.
Proof.
  unfold keys. induction d as [|[k' v'] rest IH]; cbn; intros H; [reflexivity|].
  destruct (k' =? k) eqn:E.
  - apply Z.eqb_eq in E. subst k'. exfalso. apply H. now left.
  - cbn. rewrite IH; [reflexivity|]. intros Hin. apply H. now right.
Qed.

Lemma dict_fill_keys {V} (entry : Z -> exc V) (l : list Z) (d d' : dict V) :
  dict_fill entry l d = Ok d' ->
  NoDup (keys d ++ l) ->
  keys d' = (keys d ++ l)%list.
Proof.
  revert d. induction l as [|i rest IH]; intros d H Hn; cbn in H.
  - injection H as <-. now rewrite app_nil_r.
  - destruct (entry i) as [v|e]; cbn in H; [|discriminate].
    assert (Hi : ~ In i (keys d)).
    { apply NoDup_remove_2 in Hn. intros Hin. apply Hn, in_or_app. now left. }
    rewrite (IH _ H); rewrite (keys_dict_set_fresh d i v Hi), <- app_assoc; [reflexivity|].
    exact Hn.
Qed.








(** ** The example scenarios of the design document *)

Example strings_behave :
  lower "Thank YOU" = "thank you" /\
  strip ("  a b " ++ nl) = "a b" /\
  split (nl ++ nl) ("a" ++ nl ++ nl ++ nl ++ "b" ++ nl ++ nl) = ["a"; nl ++ "b"; EmptyString] /\
  join " | " ["x"; "y"; "z"] = "x | y | z" /\
  str_of_Z 12 = "12" /\ str_of_Z 0 = "0".
Proof. repeat split; reflexivity. Qed.

Example scenario_thank_you_slide_is_removed :
  let prs := (repeat [text_box "Title 1" "Roadmap"] 4
              ++ [[text_box "Title 1" "Thank You"]])%list in
  _filter_useless_slides (sample_env prs) = Ok ([1; 2; 3; 4], [5]).
Proof. reflexivity. Qed.

Example scenario_eight_content_shapes_is_complex :
  _is_complex_slide (repeat (text_box "TextBox 1" "note") 8) = true.
Proof. reflexivity. Qed.

Example scenario_table_cells_are_joined :
  let slide := [table_shape "Table 1" [["a"; "b"]; ["c"]]] in
  _separate_slides_by_complexity (sample_env [slide]) [1] = ([1], [], []) /\
  _extract_text_from_slide slide = "a | b" ++ nl ++ "c".
Proof. split; reflexivity. Qed.

Example scenario_table_with_text_box_is_complex :
  let slide := [text_box "TextBox 1" "Q1 Results"; table_shape "Table 2" [["a"; "b"]]] in
  _separate_slides_by_complexity (sample_env [slide]) [1] = ([], [1], []).
Proof. reflexivity. Qed.

Example scenario_empty_presentation :
  _filter_useless_slides (sample_env []) = Ok ([], []) /\
  exists r, process_powerpoint_file (sample_env []) = Ok (Combined r) /\
            markdown_data r = [] /\ enhanced_markdown r = EmptyString.
Proof. split; [reflexivity|]. eexists. repeat split; reflexivity. Qed.

(** * Further properties of the code *)

(** ** Stripping *)

Lemma lstrip_head (s : string) (c : ascii) (r : string) :
  lstrip s = String c r -> is_space c = false.
Proof.
  induction s as [|a s IH]; cbn; [discriminate|].
  destruct (is_space a) eqn:E; [exact IH|]. intros H. injection H as <- _. exact E.
Qed.

Lemma lstrip_fixed (c : ascii) (r : string) :
  is_space c = false -> lstrip (String c r) = String c r.
Proof. intros H. cbn. now rewrite H. Qed.


Lemma rstrip_idem (s : string) : rstrip (rstrip s) = rstrip s.
Proof.
  induction s as [|c s IH]; [reflexivity|]. cbn [rstrip].
  destruct (is_space c && is_empty (rstrip s)) eqn:E; [reflexivity|].
  cbn [rstrip]. now rewrite IH, E.
Qed.

Lemma lstrip_rstrip_head (c : ascii) (r : string) :
  is_space c = false -> lstrip (rstrip (String c r)) = rstrip (String c r).
Proof.
  intros H. cbn [rstrip]. rewrite H. cbn [andb]. now apply lstrip_fixed.
Qed.

Lemma lstrip_strip (s : string) : lstrip (strip s) = strip s.
Proof.
  unfold strip. destruct (lstrip s) as [|c r] eqn:E; [reflexivity|].
  apply lstrip_rstrip_head. exact (lstrip_head s c r E).
Qed.

Lemma rstrip_strip (s : string) : rstrip (strip s) = strip s.
Proof. unfold strip. apply rstrip_idem. Qed.

Lemma strip_idem (s : string) : strip (strip s) = strip s.
Proof. unfold strip at 1. now rewrite lstrip_strip, rstrip_strip. Qed.

Lemma length_lstrip (s : string) : (String.length (lstrip s) <= String.length s)%nat.
Proof. induction s as [|c s IH]; cbn; [lia|]. destruct (is_space c); cbn; lia. Qed.

Lemma length_rstrip (s : string) : (String.length (rstrip s) <= String.length s)%nat.
Proof.
  induction s as [|c s IH]; cbn [rstrip]; [cbn; lia|].
  destruct (is_space c && is_empty (rstrip s)); cbn; lia.
Qed.

Lemma length_strip (s : string) : (String.length (strip s) <= String.length s)%nat.
Proof.
  unfold strip. pose proof (length_rstrip (lstrip s)). pose proof (length_lstrip s). lia.
Qed.



(** ** Slide filter: the split of all slides *)

Lemma select_permutation (slides : list Slide) (i : Z) :
  Permutation (select false i slides ++ select true i slides)
              (range_from i (List.length slides)).
Proof.
  revert i. induction slides as [|slide rest IH]; intros i; [constructor|].
  cbn [select List.length range_from]. destruct (skips slide); cbn [Bool.eqb].
  - apply Permutation_sym, Permutation_cons_app, Permutation_sym, IH.
  - cbn [app]. constructor. apply IH.
Qed.

(** X1.  When the presentation can be read, the valid list and the removed
    list together hold every slide index from 1 to the number of slides
    exactly once; each list is in strictly ascending order and no index is
    in both. *)
Theorem filter_splits_all_slides (env : Env) (prs : list Slide) :
  Presentation env = Ok prs ->
  exists valid_slides removed_slides,
    _filter_useless_slides env = Ok (valid_slides, removed_slides) /\
    Permutation (valid_slides ++ removed_slides) (range_from 1 (List.length prs)) /\
    StronglySorted Z.lt valid_slides /\
    StronglySorted Z.lt removed_slides /\
    forall idx, In idx valid_slides -> ~ In idx removed_slides.
Proof.
  intros Hp. exists (select false 1 prs), (select true 1 prs).
  split; [now apply filter_ok|]. split; [apply select_permutation|].
  split; [apply select_sorted|]. split; [apply select_sorted|].
  intros idx Hv Hr. apply in_select_slide_at in Hv, Hr.
  destruct Hv as (s1 & H1 & K1), Hr as (s2 & H2 & K2). congruence.
Qed.

Lemma filter_splits_all_slides_witness :
  let prs := [[text_box "Title 1" "Roadmap"]; [text_box "Title 1" "Thank You"]] in
  Presentation (sample_env prs) = Ok prs /\
  exists valid_slides removed_slides,
    _filter_useless_slides (sample_env prs) = Ok (valid_slides, removed_slides) /\
    Permutation (valid_slides ++ removed_slides) (range_from 1 (List.length prs)) /\
    StronglySorted Z.lt valid_slides /\
    StronglySorted Z.lt removed_slides /\
    forall idx, In idx valid_slides -> ~ In idx removed_slides.
Proof.
  cbv zeta. split; [reflexivity|].
  apply (filter_splits_all_slides (sample_env _) _ eq_refl).
Defined.

Lemma folded_text_has_shape_text (slide : Slide) (shape : Shape) (t : string) :
  In shape slide -> stripped_text (text shape) = Some t ->
  exists pre post, folded_text slide = pre ++ " " ++ lower t ++ post.
Proof.
  unfold folded_text, shape_texts. induction slide as [|sh rest IH]; intros Hin Ht; [destruct Hin|].
  cbn [flat_map]. destruct Hin as [-> | Hin].
  - rewrite Ht. cbn [opt_list app fold_right]. exists EmptyString. eexists. reflexivity.
  - destruct (IH Hin Ht) as (pre & post & E).
    destruct (stripped_text (text sh)) as [t'|]; cbn [opt_list app fold_right].
    + exists (" " ++ lower t' ++ pre), post. rewrite E. now rewrite !append_assoc.
    + exists pre, post. exact E.
Qed.

(** X2.  A skip pattern inside the stripped text of any one shape, in any
    letter case, is enough: the slide is removed and is not valid. *)
Theorem pattern_in_one_shape_removes (env : Env) (prs : list Slide) (idx : Z)
    (slide : Slide) (shape : Shape) (t pattern : string) :
  Presentation env = Ok prs ->
  slide_at prs idx = Some slide ->
  In shape slide ->
  stripped_text (text shape) = Some t ->
  In pattern skip_patterns ->
  contains pattern (lower t) = true ->
  exists valid_slides removed_slides,
    _filter_useless_slides env = Ok (valid_slides, removed_slides) /\
    In idx removed_slides /\ ~ In idx valid_slides.
Proof.
  intros Hp Hs Hin Ht Hpat Hc.
  assert (Hk : skips slide = true).
  { apply skips_spec. destruct (folded_text_has_shape_text _ _ _ Hin Ht) as (pre & post & E).
    apply contains_spec in Hc. destruct Hc as (a & b & Hab).
    exists pattern, (pre ++ " " ++ a), (b ++ post). split; [exact Hpat|].
    rewrite E, Hab. now rewrite !append_assoc. }
  exists (select false 1 prs), (select true 1 prs).
  split; [now apply filter_ok|]. rewrite !in_select_slide_at. split.
  - exists slide. auto.
  - intros (s' & Hs' & Hk'). congruence.
Qed.

Lemma pattern_in_one_shape_removes_witness :
  let shape := text_box "TextBox 2" "  Any QUESTIONS?  " in
  let slide := [text_box "Title 1" "Roadmap"; shape] in
  Presentation (sample_env [slide]) = Ok [slide] /\
  slide_at [slide] 1 = Some slide /\
  In shape slide /\
  stripped_text (text shape) = Some "Any QUESTIONS?" /\
  In "questions" skip_patterns /\
  contains "questions" (lower "Any QUESTIONS?") = true /\
  exists valid_slides removed_slides,
    _filter_useless_slides (sample_env [slide]) = Ok (valid_slides, removed_slides) /\
    In 1 removed_slides /\ ~ In 1 valid_slides.
Proof.
  cbv zeta.
  assert (H1 : In (text_box "TextBox 2" "  Any QUESTIONS?  ")
                  [text_box "Title 1" "Roadmap"; text_box "TextBox 2" "  Any QUESTIONS?  "])
    by (right; left; reflexivity).
  assert (H2 : In "questions" skip_patterns) by (cbn; tauto).
  split; [reflexivity|]. split; [reflexivity|]. split; [exact H1|].
  split; [reflexivity|]. split; [exact H2|]. split; [reflexivity|].
  exact (pattern_in_one_shape_removes
           (sample_env [[text_box "Title 1" "Roadmap"; text_box "TextBox 2" "  Any QUESTIONS?  "]])
           [[text_box "Title 1" "Roadmap"; text_box "TextBox 2" "  Any QUESTIONS?  "]]
           1 [text_box "Title 1" "Roadmap"; text_box "TextBox 2" "  Any QUESTIONS?  "]
           (text_box "TextBox 2" "  Any QUESTIONS?  ") "Any QUESTIONS?" "questions"
           eq_refl eq_refl H1 eq_refl H2 eq_refl).
Defined.

(** ** Slide classifier: placeholders, sufficient conditions, order, errors *)

Lemma content_objects_app (a b : Slide) :
  content_objects (a ++ b)%list = (content_objects a ++ content_objects b)%list.
Proof. apply filter_app. Qed.

Lemma is_complex_by_content (slide1 slide2 : Slide) :
  content_objects slide1 = content_objects slide2 ->
  _is_complex_slide slide1 = _is_complex_slide slide2.
Proof.
  intros H. unfold _is_complex_slide, is_complex_body. now rewrite H.
Qed.

(** X3.  Placeholder shapes (footer, slide number, placeholder, or a shape
    with a placeholder format) never influence the complexity test: with or
    without such a shape, wherever it stands and even if its type cannot be
    read, the answer is the same. *)
Theorem placeholder_does_not_count (before after : Slide) (p : Shape) :
  is_placeholder p = true ->
  _is_complex_slide (before ++ p :: after)%list = _is_complex_slide (before ++ after)%list.
Proof.
  intros Hp. apply is_complex_by_content.
  rewrite !content_objects_app. f_equal.
  unfold content_objects. cbn [filter]. now rewrite Hp.
Qed.

Lemma placeholder_does_not_count_witness :
  is_placeholder unreadable_footer = true /\
  _is_complex_slide ([text_box "TextBox 1" "note"] ++ unreadable_footer
                       :: [text_box "TextBox 2" "more"])%list
  = _is_complex_slide ([text_box "TextBox 1" "note"] ++ [text_box "TextBox 2" "more"])%list.
Proof.
  split; [reflexivity|].
  apply (placeholder_does_not_count [text_box "TextBox 1" "note"]
           [text_box "TextBox 2" "more"] unreadable_footer eq_refl).
Defined.

(** X4.  One content shape is enough to make a slide Complex when it is a
    picture, a group, or a shape whose name contains "connector" in any
    letter case, provided the types of the content shapes can be read. *)
Theorem one_shape_makes_complex (slide : Slide) (shape : Shape) :
  forallb readable (content_objects slide) = true ->
  In shape slide ->
  is_placeholder shape = false ->
  shape_type shape = Ok PICTURE \/ shapes shape <> None
  \/ contains "connector" (lower (name shape)) = true ->
  _is_complex_slide slide = true.
Proof.
  intros Hr Hin Hp Hkind.
  assert (Hc : In shape (content_objects slide)).
  { apply filter_In. split; [exact Hin | now rewrite Hp]. }
  unfold _is_complex_slide.
  destruct (is_complex_body_spec slide Hr) as (b & -> & Hb). apply Hb.
  destruct Hkind as [Hk | [Hk | Hk]].
  - right; right; right; right; left.
    assert (Hf : In shape (filter (has_type PICTURE) (content_objects slide))).
    { apply filter_In. split; [exact Hc|]. unfold has_type. now rewrite Hk. }
    destruct (filter (has_type PICTURE) (content_objects slide)); [destruct Hf | cbn; lia].
  - right; right; right; left. now exists shape.
  - right; right; left. now exists shape.
Qed.

Lemma one_shape_makes_complex_witness :
  let slide := [text_box "TextBox 1" "note"; picture "Picture 4"] in
  forallb readable (content_objects slide) = true /\
  In (picture "Picture 4") slide /\
  is_placeholder (picture "Picture 4") = false /\
  _is_complex_slide slide = true.
Proof.
  cbv zeta.
  assert (H : In (picture "Picture 4") [text_box "TextBox 1" "note"; picture "Picture 4"])
    by (right; left; reflexivity).
  split; [reflexivity|]. split; [exact H|]. split; [reflexivity|].
  exact (one_shape_makes_complex [text_box "TextBox 1" "note"; picture "Picture 4"]
           (picture "Picture 4") eq_refl H eq_refl (or_introl eq_refl)).
Defined.



(** X6.  Classification keeps the order of its input: from a list of
    indices in strictly ascending order come three lists in strictly
    ascending order, on every path. *)
Theorem classification_keeps_order (env : Env) (valid_slides : list Z) :
  StronglySorted Z.lt valid_slides ->
  let '(table_slides, complex_slides, simple_slides) :=
    _separate_slides_by_complexity env valid_slides in
  StronglySorted Z.lt table_slides /\
  StronglySorted Z.lt complex_slides /\
  StronglySorted Z.lt simple_slides.
Proof.
  intros Hs. destruct (separate_cases env valid_slides) as (p1 & p2 & p3 & -> & _).
  repeat split; now apply sorted_filter.
Qed.

Lemma classification_keeps_order_witness :
  let prs := [[table_shape "Table 1" [["a"]]]; [text_box "Title 1" "Roadmap"];
              [picture "Picture 4"]; [text_box "Title 1" "Plan"]] in
  StronglySorted Z.lt [1; 2; 3; 4] /\
  let '(table_slides, complex_slides, simple_slides) :=
    _separate_slides_by_complexity (sample_env prs) [1; 2; 3; 4] in
  StronglySorted Z.lt table_slides /\
  StronglySorted Z.lt complex_slides /\
  StronglySorted Z.lt simple_slides.
Proof.
  cbv zeta.
  assert (H : StronglySorted Z.lt [1; 2; 3; 4]).
  { repeat (constructor; [|repeat constructor; lia]). constructor. }
  split; [exact H|].
  exact (classification_keeps_order
           (sample_env [[table_shape "Table 1" [["a"]]]; [text_box "Title 1" "Roadmap"];
                        [picture "Picture 4"]; [text_box "Title 1" "Plan"]])
           [1; 2; 3; 4] H).
Defined.

Lemma forallb_false_at {A} (f : A -> bool) (l : list A) (x : A) :
  In x l -> f x = false -> forallb f l = false.
Proof.
  intros Hin Hf. destruct (forallb f l) eqn:E; [|reflexivity].
  rewrite forallb_forall in E. rewrite (E x Hin) in Hf. discriminate.
Qed.

(** X7.  When the presentation cannot be read, or when some listed index
    has no slide, the classification assigns every listed index to Simple:
    both the main path and the table separation of the fallback give up. *)
Theorem missing_slide_means_all_simple (env : Env) (valid_slides : list Z) :
  (exists e, Presentation env = Raise e) \/
  (exists prs idx e,
      Presentation env = Ok prs /\ In idx valid_slides /\
      py_index slide_index_error prs (idx - 1) = Raise e) ->
  _separate_slides_by_complexity env valid_slides = ([], [], valid_slides).
Proof.
  intros [[e He] | (prs & idx & e & Hp & Hin & Hi)];
    unfold _separate_slides_by_complexity, _separate_table_slides.
  - now rewrite He.
  - rewrite Hp. cbn [bind].
    destruct (proj2 (separate_loop_spec prs valid_slides [] [] [])) as [e1 ->].
    { apply (forallb_false_at _ _ idx Hin). unfold loop_category. now rewrite Hi. }
    destruct (proj2 (separate_table_loop_spec prs valid_slides [] [])) as [e2 ->].
    { apply (forallb_false_at _ _ idx Hin). unfold loop_has_table. now rewrite Hi. }
    reflexivity.
Qed.

Lemma missing_slide_means_all_simple_witness :
  let slide := [text_box "TextBox 1" "Q1 Results"; table_shape "Table 2" [["a"; "b"]]] in
  ((exists e, Presentation (sample_env [slide]) = Raise e) \/
   (exists prs idx e,
       Presentation (sample_env [slide]) = Ok prs /\ In idx [1; 2] /\
       py_index slide_index_error prs (idx - 1) = Raise e)) /\
  _separate_slides_by_complexity (sample_env [slide]) [1; 2] = ([], [], [1; 2]).
Proof.
  cbv zeta.
  assert (H : (exists e, Presentation
                           (sample_env [[text_box "TextBox 1" "Q1 Results";
                                         table_shape "Table 2" [["a"; "b"]]]]) = Raise e) \/
              (exists prs idx e,
                  Presentation (sample_env [[text_box "TextBox 1" "Q1 Results";
                                             table_shape "Table 2" [["a"; "b"]]]]) = Ok prs /\
                  In idx [1; 2] /\
                  py_index slide_index_error prs (idx - 1) = Raise e)).
  { right. eexists. exists 2. eexists. split; [reflexivity|].
    split; [right; left; reflexivity | reflexivity]. }
  split; [exact H|].
  exact (missing_slide_means_all_simple _ [1; 2] H).
Defined.

Lemma table_and_textbox_unreadable (slide : Slide) (a b : bool) :
  forallb readable slide = false -> exists e, table_and_textbox slide a b = Raise e.
Proof.
  revert a b. induction slide as [|shape rest IH]; intros a b H; [discriminate|].
  cbn [forallb] in H. cbn [table_and_textbox]. unfold readable at 1 in H.
  destruct (shape_type shape) as [ty|e]; cbn [bind]; [|now exists e].
  cbn [andb] in H. now apply IH.
Qed.

(** X8.  When some listed slide that the complexity test does not take has
    a shape whose type cannot be read, the classification leaves its main
    path and no slide at all is assigned Complex. *)
Theorem unreadable_shape_means_no_complex (env : Env) (prs : list Slide)
    (valid_slides : list Z) (idx : Z) (slide : Slide) :
  Presentation env = Ok prs ->
  In idx valid_slides ->
  py_index slide_index_error prs (idx - 1) = Ok slide ->
  _is_complex_slide slide = false ->
  forallb readable slide = false ->
  exists table_slides simple_slides,
    _separate_slides_by_complexity env valid_slides = (table_slides, [], simple_slides).
Proof.
  intros Hp Hin Hs Hc Hr. unfold _separate_slides_by_complexity. rewrite Hp. cbn [bind].
  destruct (proj2 (separate_loop_spec prs valid_slides [] [] [])) as [e1 ->].
  { apply (forallb_false_at _ _ idx Hin). unfold loop_category. rewrite Hs. cbn [bind].
    rewrite Hc. destruct (table_and_textbox_unreadable slide false false Hr) as [e ->].
    reflexivity. }
  destruct (_separate_table_slides env valid_slides) as [t r]. now exists t, r.
Qed.

Lemma unreadable_shape_means_no_complex_witness :
  let prs := [[picture "Picture 4"]; [text_box "Title 1" "Plan"; unrecognised "Content 3"]] in
  Presentation (sample_env prs) = Ok prs /\
  In 2 [1; 2] /\
  py_index slide_index_error prs (2 - 1)
  = Ok [text_box "Title 1" "Plan"; unrecognised "Content 3"] /\
  _is_complex_slide [text_box "Title 1" "Plan"; unrecognised "Content 3"] = false /\
  forallb readable [text_box "Title 1" "Plan"; unrecognised "Content 3"] = false /\
  exists table_slides simple_slides,
    _separate_slides_by_complexity (sample_env prs) [1; 2] = (table_slides, [], simple_slides).
Proof.
  cbv zeta.
  assert (H : In 2 [1; 2]) by (right; left; reflexivity).
  split; [reflexivity|]. split; [exact H|]. split; [reflexivity|].
  split; [reflexivity|]. split; [reflexivity|].
  exact (unreadable_shape_means_no_complex
           (sample_env [[picture "Picture 4"];
                        [text_box "Title 1" "Plan"; unrecognised "Content 3"]])
           [[picture "Picture 4"]; [text_box "Title 1" "Plan"; unrecognised "Content 3"]]
           [1; 2] 2 [text_box "Title 1" "Plan"; unrecognised "Content 3"]
           eq_refl H eq_refl eq_refl eq_refl).
Defined.

(** X9.  The table separation used as fallback splits its input: the table
    list and the regular list together are a rearrangement of the input and
    share no index.  When the presentation cannot be read or some listed
    index has no slide, it returns no table slide and the whole input as
    regular. *)
Theorem table_separation_is_partition (env : Env) (valid_slides : list Z) :
  let '(table_slides, regular_slides) := _separate_table_slides env valid_slides in
  Permutation (table_slides ++ regular_slides) valid_slides /\
  (forall idx, In idx table_slides -> ~ In idx regular_slides) /\
  ((exists e, Presentation env = Raise e) \/
   (exists prs idx e,
       Presentation env = Ok prs /\ In idx valid_slides /\
       py_index slide_index_error prs (idx - 1) = Raise e) ->
   table_slides = [] /\ regular_slides = valid_slides).
Proof.
  unfold _separate_table_slides.
  destruct (Presentation env) as [prs|e] eqn:Hp; cbn [bind].
  2:{ cbn [app]. repeat split; auto. }
  destruct (separate_table_loop_spec prs valid_slides [] []) as [T1 T2].
  destruct (forallb (fun i => is_ok (loop_has_table prs i)) valid_slides) eqn:E.
  - rewrite (T1 eq_refl). cbn [app].
    destruct (partition_by (table_flag prs true) (fun _ => false) (table_flag prs false)
                valid_slides) as [P1 P2].
    { intros i Hi. apply table_flag_one_true. rewrite forallb_forall in E. now apply E. }
    rewrite filter_false in P1, P2. cbn [app] in P1. split; [exact P1|]. split.
    + intros idx Ht Hr. assert (Hin : In idx valid_slides) by (apply filter_In in Ht; tauto).
      destruct (P2 idx Hin) as [(_ & _ & N) | [(_ & [] & _) | (N & _ & _)]]; contradiction.
    + intros [[e He] | (prs' & idx & e & Hp' & Hin & Hi)]; [discriminate|].
      injection Hp' as <-. rewrite forallb_forall in E. specialize (E idx Hin).
      unfold loop_has_table in E. rewrite Hi in E. discriminate.
  - destruct (T2 eq_refl) as [e ->]. cbn [app]. split; [reflexivity|].
    split; [intros idx [] | auto].
Qed.

(** ** Extraction router: tables *)

Lemma join_nil_or (sep : string) (l : list string) :
  (if nonempty l then join sep l else EmptyString) = join sep l.
Proof. now destruct l. Qed.

Lemma flat_map_filter_map {A B} (f : A -> B) (p : A -> bool) (l : list A) :
  flat_map (fun x => if p x then [f x] else []) l = map f (filter p l).
Proof.
  induction l as [|x rest IH]; [reflexivity|]. cbn [flat_map filter].
  destruct (p x); cbn; now rewrite IH.
Qed.

Lemma truthy_join (sep : string) (l : list string) :
  nonempty l = true -> Forall (fun x => truthy x = true) l -> truthy (join sep l) = true.
Proof.
  destruct l as [|x rest]; [discriminate|]. intros _ H. inversion H as [|? ? Hx Hrest]; subst.
  destruct x as [|c x]; [discriminate|]. now destruct rest.
Qed.



Lemma truthy_false_empty (s : string) : truthy s = false -> s = EmptyString.
Proof. now destruct s. Qed.

Lemma row_text_parts_nil (row : list string) :
  row_text_parts row = [] <-> Forall (fun cell => strip cell = EmptyString) row.
Proof.
  unfold row_text_parts. induction row as [|c rest IH]; [split; constructor|].
  cbn [map filter]. destruct (truthy c) eqn:Ec.
  - destruct (truthy (strip c)) eqn:Es.
    + split; [discriminate|]. intros H. inversion H as [|? ? H1 _]; subst.
      rewrite H1 in Es. discriminate.
    + rewrite IH. split; intros H.
      * constructor; [now apply truthy_false_empty | exact H].
      * now inversion H.
  - apply truthy_false_empty in Ec. subst c. cbn [truthy is_empty negb].
    rewrite IH. split; intros H; [constructor; [reflexivity | exact H] | now inversion H].
Qed.

Lemma row_text_parts_truthy (row : list string) :
  Forall (fun x => truthy x = true) (row_text_parts row).
Proof.
  unfold row_text_parts. apply Forall_forall. intros x Hx. now apply filter_In in Hx.
Qed.

(** X11.  The text of a table is empty exactly when every cell of the table
    is blank (empty once stripped); one non-blank cell is enough for a
    non-empty text. *)
Theorem table_text_empty_iff_blank (table_shape : Shape) :
  _extract_text_from_table table_shape = EmptyString <->
  Forall (Forall (fun cell => strip cell = EmptyString)) (table table_shape).
Proof.
  unfold _extract_text_from_table. cbv zeta. rewrite join_nil_or.
  rewrite (flat_map_filter_map (fun row => join " | " (row_text_parts row))
             (fun row => nonempty (row_text_parts row))).
  generalize (table table_shape) as rows. intros rows.
  assert (Hf : filter (fun row => nonempty (row_text_parts row)) rows = []
               <-> Forall (Forall (fun cell => strip cell = EmptyString)) rows).
  { induction rows as [|r rest IH]; [split; constructor|].
    cbn [filter]. destruct (row_text_parts r) as [|x xs] eqn:E; cbn [nonempty].
    - rewrite IH. apply row_text_parts_nil in E.
      split; intros H; [now constructor | now inversion H].
    - split; [discriminate|]. intros H. inversion H as [|? ? H1 _]; subst.
      apply row_text_parts_nil in H1. congruence. }
  rewrite <- Hf. split.
  - intros H.
    destruct (filter (fun row => nonempty (row_text_parts row)) rows) as [|r rest] eqn:E;
      [reflexivity|].
    exfalso.
    assert (T : truthy (join nl (map (fun row => join " | " (row_text_parts row)) (r :: rest)))
                = true).
    { apply truthy_join; [reflexivity|]. apply Forall_forall. intros x Hx.
      apply in_map_iff in Hx. destruct Hx as (row & <- & Hrow).
      rewrite <- E in Hrow. apply filter_In in Hrow. destruct Hrow as [_ Hne].
      apply truthy_join; [exact Hne | apply row_text_parts_truthy]. }
    rewrite H in T. discriminate.
  - intros ->. reflexivity.
Qed.

(** ** Extraction router: descriptions *)

Lemma process_image_nonempty (env : Env) (image_path : string) (slide_idx : Z)
    (source_file slide_text : string) :
  truthy (_process_slide_image_with_gemini env image_path slide_idx source_file slide_text)
  = true.
Proof.
  unfold _process_slide_image_with_gemini.
  destruct (call_gemini env image_path slide_idx source_file slide_text) as [response|e];
    [|reflexivity].
  destruct (truthy (strip response)) eqn:E; [exact E | reflexivity].
Qed.

Lemma convert_nonempty (env : Env) (slide : Slide) (slide_idx : Z) (source_file : string) :
  truthy (_convert_slide_to_image_and_process env slide slide_idx source_file) = true.
Proof.
  unfold _convert_slide_to_image_and_process.
  destruct (export_slide_as_image env slide_idx) as [image_path|e]; [|reflexivity].
  destruct (truthy image_path && path_exists env image_path);
    [apply process_image_nonempty|].
  now destruct (truthy (strip (_extract_text_from_slide slide))).
Qed.

(** X12.  No slide ever gets an empty description.  Whatever the exporter
    and the vision service do (fail, raise, answer with blanks), the
    image-based strategy returns a non-empty string for a slide, so every
    description of the complex result and of the table result is
    non-empty. *)
Theorem description_is_never_empty (env : Env) (slides : list Z) :
  (forall slide slide_idx source_file,
      truthy (_convert_slide_to_image_and_process env slide slide_idx source_file) = true) /\
  Forall (fun kv => truthy (snd kv) = true)
         (_process_complex_slides_with_gemini env slides) /\
  Forall (fun kv => truthy (description (snd kv)) = true)
         (_process_table_slides env slides).
Proof.
  split; [intros; apply convert_nonempty|]. split.
  - unfold _process_complex_slides_with_gemini.
    destruct (nonempty slides); [|constructor].
    destruct (Presentation env) as [prs|e]; cbn [bind]; [|constructor].
    rewrite complex_slides_loop_fill.
    destruct (dict_fill (complex_entry env prs) slides []) as [d|e] eqn:Hd; [|constructor].
    destruct (dict_fill_inv _ _ _ _ Hd) as (_ & _ & I3 & _).
    apply I3; [constructor|]. intros i v Hv. unfold complex_entry in Hv.
    destruct (py_index slide_index_error prs (i - 1)); cbn [bind] in Hv; [|discriminate].
    destruct (shape_types _); cbn [bind] in Hv; [|discriminate].
    injection Hv as <-. reflexivity.
  - unfold _process_table_slides.
    destruct (nonempty slides); [|constructor].
    destruct (Presentation env) as [prs|e]; cbn [bind]; [|constructor].
    rewrite table_slides_loop_fill.
    destruct (dict_fill (table_entry env prs) slides []) as [d|e] eqn:Hd; [|constructor].
    destruct (dict_fill_inv _ _ _ _ Hd) as (_ & _ & I3 & _).
    apply I3; [constructor|]. intros i v Hv. unfold table_entry in Hv.
    destruct (py_index slide_index_error prs (i - 1)); cbn [bind] in Hv; [|discriminate].
    injection Hv as <-. apply convert_nonempty.
Qed.

Lemma dict_fill_fails {V} (entry : Z -> exc V) (l : list Z) (d : dict V) (idx : Z) (e : exn) :
  In idx l -> entry idx = Raise e -> exists e', dict_fill entry l d = Raise e'.
Proof.
  revert d. induction l as [|i rest IH]; intros d Hin He; [destruct Hin|].
  cbn [dict_fill]. destruct (entry i) as [v|e0] eqn:Ei; cbn [bind]; [|now exists e0].
  destruct Hin as [-> | Hin]; [congruence | now apply IH].
Qed.

(** X13.  One bad slide drops the whole batch.  When some listed index has
    no slide, the complex strategy and the table strategy both return an
    empty result, without any entry for the other slides; the complex
    strategy does the same when a listed slide has a shape whose type
    cannot be read. *)
Theorem one_bad_slide_drops_the_batch (env : Env) (prs : list Slide) (slides : list Z)
    (idx : Z) :
  Presentation env = Ok prs ->
  In idx slides ->
  ((exists e, py_index slide_index_error prs (idx - 1) = Raise e) ->
   _process_complex_slides_with_gemini env slides = [] /\
   _process_table_slides env slides = []) /\
  (forall slide,
      py_index slide_index_error prs (idx - 1) = Ok slide ->
      forallb readable slide = false ->
      _process_complex_slides_with_gemini env slides = []).
Proof.
  intros Hp Hin.
  assert (Hne : nonempty slides = true) by (destruct slides; [destruct Hin | reflexivity]).
  unfold _process_complex_slides_with_gemini, _process_table_slides.
  rewrite Hne, Hp. cbn [bind]. rewrite complex_slides_loop_fill, table_slides_loop_fill.
  split.
  - intros [e He]. split.
    + destruct (dict_fill_fails (complex_entry env prs) slides [] idx e Hin) as [e' ->];
        [|reflexivity].
      unfold complex_entry. now rewrite He.
    + destruct (dict_fill_fails (table_entry env prs) slides [] idx e Hin) as [e' ->];
        [|reflexivity].
      unfold table_entry. now rewrite He.
  - intros slide Hs Hr. destruct (proj2 (shape_types_spec slide) Hr) as [e He].
    destruct (dict_fill_fails (complex_entry env prs) slides [] idx e Hin) as [e' ->];
      [|reflexivity].
    unfold complex_entry. rewrite Hs. cbn [bind]. now rewrite He.
Qed.

Lemma one_bad_slide_drops_the_batch_witness :
  let prs := [[picture "Picture 4"]] in
  Presentation (sample_env prs) = Ok prs /\
  In 2 [1; 2] /\
  (exists e, py_index slide_index_error prs (2 - 1) = Raise e) /\
  _process_complex_slides_with_gemini (sample_env prs) [1; 2] = [] /\
  _process_table_slides (sample_env prs) [1; 2] = [].
Proof.
  cbv zeta.
  assert (H : In 2 [1; 2]) by (right; left; reflexivity).
  assert (H' : exists e, py_index slide_index_error [[picture "Picture 4"]] (2 - 1) = Raise e)
    by (eexists; reflexivity).
  split; [reflexivity|]. split; [exact H|]. split; [exact H'|].
  exact (proj1 (one_bad_slide_drops_the_batch (sample_env [[picture "Picture 4"]])
                  [[picture "Picture 4"]] [1; 2] 2 eq_refl H) H').
Defined.

(** X14.  A batch of distinct indices, each with a slide whose shape types
    can be read, gives exactly one entry per index, in the order of the
    batch, in the complex result and in the table result. *)
Theorem batch_has_one_entry_per_slide (env : Env) (prs : list Slide) (slides : list Z) :
  Presentation env = Ok prs ->
  Forall (classifiable prs) slides ->
  NoDup slides ->
  keys (_process_complex_slides_with_gemini env slides) = slides /\
  keys (_process_table_slides env slides) = slides /\
  Forall (fun kv => slide_number (snd kv) = fst kv) (_process_table_slides env slides).
Proof.
  intros Hp Hall Hn. rewrite Forall_forall in Hall.
  unfold _process_complex_slides_with_gemini, _process_table_slides.
  destruct slides as [|i0 rest] eqn:Es; [repeat split; constructor|].
  rewrite <- Es in *. assert (Hne : nonempty slides = true) by (now rewrite Es).
  rewrite Hne, Hp. cbn [bind]. rewrite complex_slides_loop_fill, table_slides_loop_fill.
  destruct (dict_fill_ok (complex_entry env prs) slides []) as [dc Hdc].
  { intros i Hi. destruct (Hall i Hi) as (sl & Hsl & Hr). unfold complex_entry.
    rewrite Hsl. cbn [bind]. now rewrite (proj1 (shape_types_spec sl) Hr). }
  destruct (dict_fill_ok (table_entry env prs) slides []) as [dt Hdt].
  { intros i Hi. destruct (Hall i Hi) as (sl & Hsl & Hr). unfold table_entry. now rewrite Hsl. }
  rewrite Hdc, Hdt.
  split; [exact (dict_fill_keys _ _ _ _ Hdc Hn)|].
  split; [exact (dict_fill_keys _ _ _ _ Hdt Hn)|].
  destruct (dict_fill_inv _ _ _ _ Hdt) as (_ & _ & I3 & _).
  apply I3; [constructor|]. intros i v Hv. unfold table_entry in Hv.
  destruct (py_index slide_index_error prs (i - 1)); cbn [bind] in Hv; [|discriminate].
  now injection Hv as <-.
Qed.

Lemma batch_has_one_entry_per_slide_witness :
  let prs := [[picture "Picture 4"]; [table_shape "Table 1" [["a"]]]] in
  Presentation (sample_env prs) = Ok prs /\
  Forall (classifiable prs) [2; 1] /\
  NoDup [2; 1] /\
  keys (_process_complex_slides_with_gemini (sample_env prs) [2; 1]) = [2; 1] /\
  keys (_process_table_slides (sample_env prs) [2; 1]) = [2; 1].
Proof.
  cbv zeta.
  assert (H1 : Forall (classifiable [[picture "Picture 4"]; [table_shape "Table 1" [["a"]]]])
                      [2; 1]).
  { constructor; [|constructor; [|constructor]]; eexists; split; reflexivity. }
  assert (H2 : NoDup [2; 1]).
  { constructor; [intros [H | []]; discriminate|]. constructor; [intros []|constructor]. }
  split; [reflexivity|]. split; [exact H1|]. split; [exact H2|].
  destruct (batch_has_one_entry_per_slide
              (sample_env [[picture "Picture 4"]; [table_shape "Table 1" [["a"]]]])
              [[picture "Picture 4"]; [table_shape "Table 1" [["a"]]]] [2; 1]
              eq_refl H1 H2) as (K1 & K2 & _).
  split; [exact K1 | exact K2].
Defined.

(** X15.  The text extraction of the simple slides passes over an index
    without slide and over a slide without text: the result is what it is
    without that index, the other slides being kept. *)
Theorem text_extraction_skips_bad_slide (env : Env) (prs : list Slide)
    (before after : list Z) (bad : Z) :
  Presentation env = Ok prs ->
  (exists e, py_index slide_index_error prs (bad - 1) = Raise e) \/
  (exists slide, py_index slide_index_error prs (bad - 1) = Ok slide /\
                 simple_slide_text slide = []) ->
  _extract_fallback_text_from_slides env (before ++ bad :: after)
  = _extract_fallback_text_from_slides env (before ++ after).
Proof.
  intros Hp Hbad. unfold _extract_fallback_text_from_slides. rewrite Hp.
  rewrite !fallback_loop_entries. cbn [app]. f_equal. f_equal.
  unfold simple_entries. rewrite !flat_map_app. f_equal. cbn [flat_map].
  destruct Hbad as [[e ->] | (slide & -> & ->)]; reflexivity.
Qed.

Lemma text_extraction_skips_bad_slide_witness :
  let prs := [[text_box "Title 1" "Roadmap"]; [picture "Picture 4"]] in
  Presentation (sample_env prs) = Ok prs /\
  ((exists e, py_index slide_index_error prs (7 - 1) = Raise e) \/
   (exists slide, py_index slide_index_error prs (7 - 1) = Ok slide /\
                  simple_slide_text slide = [])) /\
  _extract_fallback_text_from_slides (sample_env prs) ([1] ++ 7 :: [2])
  = _extract_fallback_text_from_slides (sample_env prs) ([1] ++ [2]).
Proof.
  cbv zeta.
  assert (H : (exists e, py_index slide_index_error
                           [[text_box "Title 1" "Roadmap"]; [picture "Picture 4"]] (7 - 1)
                         = Raise e) \/
              (exists slide, py_index slide_index_error
                               [[text_box "Title 1" "Roadmap"]; [picture "Picture 4"]] (7 - 1)
                             = Ok slide /\ simple_slide_text slide = [])).
  { left. eexists. reflexivity. }
  split; [reflexivity|]. split; [exact H|].
  exact (text_extraction_skips_bad_slide
           (sample_env [[text_box "Title 1" "Roadmap"]; [picture "Picture 4"]])
           [[text_box "Title 1" "Roadmap"]; [picture "Picture 4"]] [1] [2] 7 eq_refl H).
Defined.

(** ** Extraction router: the text of a slide *)

Lemma contains_refl (x : string) : contains x x = true.
Proof. apply contains_spec. exists EmptyString, EmptyString. cbn. now rewrite append_nil_r. Qed.

Lemma contains_trans (a b c : string) :
  contains a b = true -> contains b c = true -> contains a c = true.
Proof.
  rewrite !contains_spec. intros (p1 & q1 & ->) (p2 & q2 & ->).
  exists (p2 ++ p1), (q1 ++ q2). now rewrite !append_assoc.
Qed.

Lemma contains_join (sep x : string) (l : list string) :
  In x l -> contains x (join sep l) = true.
Proof.
  induction l as [|p rest IH]; intros Hin; [destruct Hin|].
  destruct rest as [|q rest'].
  - destruct Hin as [-> | []]. apply contains_refl.
  - change (join sep (p :: q :: rest')) with (p ++ sep ++ join sep (q :: rest')).
    destruct Hin as [-> | Hin].
    + apply contains_spec. exists EmptyString. eexists. reflexivity.
    + apply contains_spec. apply IH, contains_spec in Hin. destruct Hin as (pre & post & ->).
      exists (p ++ sep ++ pre), post. now rewrite !append_assoc.
Qed.

Lemma slide_text_has_part (slide : Slide) (shape : Shape) (part : string) :
  In shape slide -> In part (shape_text_parts shape) ->
  contains part (_extract_text_from_slide slide) = true.
Proof.
  intros Hs Hp. unfold _extract_text_from_slide. apply contains_join.
  apply in_flat_map. now exists shape.
Qed.

(** X16.  The text extracted from a slide loses nothing: it contains the
    stripped text of every shape that has some (also of a shape whose type
    cannot be read), every non-blank cell of every table, and the stripped
    text of every shape inside a group. *)
Theorem extraction_loses_no_text (slide : Slide) (shape : Shape) :
  In shape slide ->
  (forall t, stripped_text (text shape) = Some t ->
             contains t (_extract_text_from_slide slide) = true) /\
  (forall row cell,
      shape_type shape = Ok TABLE -> In row (table shape) -> In cell row ->
      truthy (strip cell) = true ->
      contains (strip cell) (_extract_text_from_slide slide) = true) /\
  (forall ty sub_shapes sub t,
      shape_type shape = Ok ty -> shapes shape = Some sub_shapes -> In sub sub_shapes ->
      stripped_text sub = Some t ->
      contains t (_extract_text_from_slide slide) = true).
Proof.
  intros Hin. split; [|split].
  - intros t Ht. apply (slide_text_has_part slide shape t Hin).
    unfold shape_text_parts. rewrite Ht.
    destruct (shape_type shape); cbn [opt_list]; [apply in_or_app; left|]; now left.
  - intros row cell Hty Hrow Hcell Hne.
    assert (Hpart : In (strip cell) (row_text_parts row)).
    { unfold row_text_parts. apply filter_In. split; [|exact Hne].
      apply in_map_iff. exists cell. split; [|exact Hcell].
      destruct cell; [discriminate Hne | reflexivity]. }
    assert (Hn : nonempty (row_text_parts row) = true).
    { destruct (row_text_parts row); [destruct Hpart | reflexivity]. }
    set (lines := flat_map (fun r => let parts := row_text_parts r in
                                     if nonempty parts then [join " | " parts] else [])
                           (table shape)).
    assert (Hline : In (join " | " (row_text_parts row)) lines).
    { apply in_flat_map. exists row. split; [exact Hrow|]. cbv zeta. rewrite Hn. now left. }
    assert (Htext : _extract_text_from_table shape = join nl lines).
    { unfold _extract_text_from_table. cbv zeta. fold lines. apply join_nil_or. }
    assert (Htruthy : truthy (_extract_text_from_table shape) = true).
    { rewrite Htext. apply truthy_join.
      - destruct lines; [destruct Hline | reflexivity].
      - apply Forall_forall. intros x Hx. apply in_flat_map in Hx.
        destruct Hx as (r & _ & Hx). cbv zeta in Hx.
        destruct (nonempty (row_text_parts r)) eqn:E; [|destruct Hx].
        destruct Hx as [<- | []]. apply truthy_join; [exact E | apply row_text_parts_truthy]. }
    apply (contains_trans _ (join " | " (row_text_parts row))); [now apply contains_join|].
    apply (contains_trans _ (_extract_text_from_table shape)).
    { rewrite Htext. now apply contains_join. }
    apply (slide_text_has_part slide shape _ Hin).
    unfold shape_text_parts. rewrite Hty. rewrite Z.eqb_refl. cbv zeta. rewrite Htruthy.
    apply in_or_app. right. apply in_or_app. left. now left.
  - intros ty sub_shapes sub t Hty Hsub Hs Ht.
    apply (slide_text_has_part slide shape t Hin).
    unfold shape_text_parts. rewrite Hty, Hsub.
    apply in_or_app. right. apply in_or_app. right.
    apply in_flat_map. exists sub. split; [exact Hs|]. rewrite Ht. now left.
Qed.

Lemma extraction_loses_no_text_witness :
  let shape := table_shape "Table 2" [["Revenue"; " 12 "]] in
  let slide := [text_box "TextBox 1" "Q1 Results"; shape] in
  In shape slide /\
  contains "12" (_extract_text_from_slide slide) = true.
Proof.
  cbv zeta.
  assert (H : In (table_shape "Table 2" [["Revenue"; " 12 "]])
                 [text_box "TextBox 1" "Q1 Results"; table_shape "Table 2" [["Revenue"; " 12 "]]])
    by (right; left; reflexivity).
  split; [exact H|].
  apply (proj1 (proj2 (extraction_loses_no_text
                         [text_box "TextBox 1" "Q1 Results";
                          table_shape "Table 2" [["Revenue"; " 12 "]]]
                         (table_shape "Table 2" [["Revenue"; " 12 "]]) H))
               ["Revenue"; " 12 "] " 12 " eq_refl).
  - left. reflexivity.
  - right. left. reflexivity.
  - reflexivity.
Defined.

(** ** Result merger: failures *)

Lemma complex_section_loop_total (d : dict string) (ks : list Z) (acc : string) :
  (forall k, In k ks -> In k (keys d)) ->
  exists out, complex_section_loop d ks acc = Ok out.
Proof.
  revert acc. induction ks as [|k rest IH]; intros acc Hk; [now exists acc|].
  destruct (dict_get_In d k (Hk k (or_introl eq_refl))) as (v & Hv & _).
  cbn [complex_section_loop]. unfold dict_getitem. rewrite Hv. cbn [bind].
  apply IH. intros k' H'. apply Hk. now right.
Qed.

Lemma table_section_loop_total (source : string) (d : dict TableInfo) (ks : list Z)
    (acc : string) :
  (forall k, In k ks -> In k (keys d)) ->
  exists out, table_section_loop source d ks acc = Ok out.
Proof.
  revert acc. induction ks as [|k rest IH]; intros acc Hk; [now exists acc|].
  destruct (dict_get_In d k (Hk k (or_introl eq_refl))) as (v & Hv & _).
  cbn [table_section_loop]. unfold dict_getitem. rewrite Hv. cbn [bind].
  apply IH. intros k' H'. apply Hk. now right.
Qed.

(** Building the merged markdown never raises: every key of the sorted key
    list is a key of the dictionary. *)
Lemma build_enhanced_markdown_total (markdown_content source : string)
    (tables : dict TableInfo) (complex : dict string) :
  exists doc, build_enhanced_markdown markdown_content source tables complex = Ok doc.
Proof.
  unfold build_enhanced_markdown. cbv zeta.
  set (md1 := if truthy markdown_content then _ else _).
  assert (H2 : exists md2,
             (if nonempty complex
              then complex_section_loop complex (sorted (keys complex)) (md1 ++ complex_title)
              else Ok md1) = Ok md2).
  { destruct (nonempty complex); [|now exists md1].
    apply complex_section_loop_total. intros k. apply in_sorted. }
  destruct H2 as [md2 ->]. cbn [bind].
  destruct (nonempty tables); [|now exists md2].
  apply table_section_loop_total. intros k. apply in_sorted.
Qed.

(** X17.  The merge fails only on the write of the final markdown file.
    When that write succeeds the merge returns its combined result even if
    the downstream pipeline raises, the error of the pipeline being kept in
    the result; when the write raises, the merge returns the error object
    with the message of that exception. *)
Theorem merge_fails_only_on_write (env : Env) (markdown_content : string)
    (processed_tables : dict TableInfo) (source : string)
    (raw_ocr_path : option string) (complex_slide_descriptions : dict string) :
  ((forall name text, exists u, write_file env name text = Ok u) ->
   exists r,
     _process_csvs_and_combine_results env markdown_content processed_tables source
       raw_ocr_path complex_slide_descriptions = Combined r /\
     source_file r = source /\
     complex_slides_info r = complex_slide_descriptions /\
     table_slides_info r = processed_tables /\
     total_table_slides_processed r = Z.of_nat (List.length processed_tables) /\
     total_complex_slides_identified r = Z.of_nat (List.length complex_slide_descriptions) /\
     forall e, run_3_agent_pipeline_for_markdown env (final_enhanced_markdown_file r) source
               = Raise e ->
               enhanced_markdown_pipeline_result r = PipelineError (exn_msg e)) /\
  (forall e, (forall name text, write_file env name text = Raise e) ->
             _process_csvs_and_combine_results env markdown_content processed_tables source
               raw_ocr_path complex_slide_descriptions = CombineError source (exn_msg e)).
Proof.
  unfold _process_csvs_and_combine_results, combine_body.
  destruct (build_enhanced_markdown_total markdown_content source processed_tables
              complex_slide_descriptions) as [doc ->].
  cbn [bind]. split.
  - intros Hw.
    match goal with
    | |- context [write_file env ?n ?t] => destruct (Hw n t) as [u ->]
    end.
    cbn [bind]. eexists. split; [reflexivity|].
    cbn [source_file complex_slides_info table_slides_info total_table_slides_processed
         total_complex_slides_identified final_enhanced_markdown_file
         enhanced_markdown_pipeline_result].
    repeat split.
    + unfold table_processing. now rewrite length_map.
    + intros e ->. reflexivity.
  - intros e Hw. rewrite Hw. reflexivity.
Qed.

Lemma merge_fails_only_on_write_witness :
  let env := sample_env [] in
  (forall name text, exists u, write_file env name text = Ok u) /\
  exists r,
    _process_csvs_and_combine_results env EmptyString [] "deck.pptx" None
      [(2, "## deck.pptx:slide-2")] = Combined r /\
    source_file r = "deck.pptx".
Proof.
  cbv zeta.
  assert (H : forall name text, exists u, write_file (sample_env []) name text = Ok u)
    by (intros; now exists tt).
  split; [exact H|].
  destruct (proj1 (merge_fails_only_on_write (sample_env []) EmptyString [] "deck.pptx" None
                     [(2, "## deck.pptx:slide-2")]) H) as (r & Hr & Hs & _).
  exists r. split; [exact Hr | exact Hs].
Defined.

(** ** Result merger: sections and titles *)

Lemma title_length (section : string) : len (_extract_title_from_section section) <= 80.
Proof.
  unfold _extract_title_from_section, len. rewrite title_from_lines_find.
  destruct (find title_line (map strip (split nl section))) as [line|]; cbn [option_map].
  - pose proof (length_take 80 (strip (remove_chars marker line))). lia.
  - destruct (50 <? _) eqn:L.
    + rewrite length_append.
      pose proof (length_take 50 (strip (remove_chars marker_or_bang section))).
      cbn [String.length]. lia.
    + apply Z.ltb_ge in L. unfold len in L. lia.
Qed.

Lemma sections_loop_spec (current_time doc : string) (pages : list string) (i : Z) :
  let recs := sections_loop current_time doc i pages in
  Forall (fun rec =>
            strip (content rec) = content rec /\
            50 < len (content rec) /\
            title rec = _extract_title_from_section (content rec) /\
            last_updated_date rec = current_time) recs /\
  exists ks,
    map source recs = map (slide_source doc) ks /\
    StronglySorted Z.lt ks /\
    Forall (fun k => i + 1 <= k <= i + Z.of_nat (List.length pages)) ks /\
    map (fun rec => Some (content rec)) recs
    = map (fun k => option_map strip (nth_error pages (Z.to_nat (k - (i + 1))))) ks.
Proof.
  cbv zeta. revert i. induction pages as [|page rest IH]; intros i.
  - split; [constructor|]. exists []. repeat split; constructor.
  - destruct (IH (i + 1)) as (F & ks & Hsrc & Hsort & Hbound & Hcont).
    assert (Hb' : Forall (fun k => i + 1 <= k <= i + Z.of_nat (List.length (page :: rest))) ks).
    { eapply Forall_impl; [|exact Hbound]. cbn [List.length]. intros k Hk. cbn beta in *. lia. }
    assert (Hc' : map (fun rec => Some (content rec))
                      (sections_loop current_time doc (i + 1) rest)
                  = map (fun k => option_map strip
                                    (nth_error (page :: rest) (Z.to_nat (k - (i + 1))))) ks).
    { rewrite Hcont. apply map_ext_in. intros k Hk. rewrite Forall_forall in Hbound.
      specialize (Hbound k Hk). cbn beta in Hbound.
      replace (Z.to_nat (k - (i + 1))) with (S (Z.to_nat (k - (i + 1 + 1)))) by lia.
      reflexivity. }
    cbn [sections_loop].
    destruct (truthy (strip page) && (50 <? len (strip page))) eqn:E.
    + apply andb_true_iff in E. destruct E as [E1 E2]. apply Z.ltb_lt in E2. split.
      * constructor; [|exact F]. cbn [content title last_updated_date].
        repeat split; [apply strip_idem | exact E2].
      * exists (i + 1 :: ks). cbn [map source content]. split; [now rewrite Hsrc|].
        split.
        { constructor; [exact Hsort|]. eapply Forall_impl; [|exact Hbound].
          cbn beta. intros; lia. }
        split.
        { constructor; [cbn [List.length]; lia | exact Hb']. }
        rewrite Hc'. rewrite Z.sub_diag. reflexivity.
    + split; [exact F|]. exists ks. auto.
Qed.

(** X18.  Every section record made from the simple text holds a stripped
    block of more than 50 characters, a title of at most 80 characters
    derived from that block, and the time of the merge.  The records name
    slide numbers in strictly ascending order, each being the position of
    its block among the blocks separated by blank lines, so no slide number
    exceeds the number of blocks. *)
Theorem sections_are_substantial (env : Env) (markdown_content doc : string) :
  let recs := _extract_sections_from_markdown env markdown_content doc in
  let pages := split (nl ++ nl) markdown_content in
  Forall (fun rec =>
            strip (content rec) = content rec /\
            50 < len (content rec) /\
            title rec = _extract_title_from_section (content rec) /\
            len (title rec) <= 80 /\
            last_updated_date rec = now_isoformat env) recs /\
  exists ks,
    map source recs = map (slide_source doc) ks /\
    StronglySorted Z.lt ks /\
    Forall (fun k => 1 <= k <= Z.of_nat (List.length pages)) ks /\
    map (fun rec => Some (content rec)) recs = map (stripped_page pages) ks.
Proof.
  cbv zeta. unfold _extract_sections_from_markdown.
  destruct (sections_loop_spec (now_isoformat env) doc
              (split (nl ++ nl) markdown_content) 0) as (F & ks & H1 & H2 & H3 & H4).
  split.
  - eapply Forall_impl; [|exact F]. cbn beta. intros rec (A & B & C & D).
    repeat split; try assumption. rewrite C. apply title_length.
  - exists ks. repeat split; try assumption.
Qed.

Lemma chars_all_impl (p q : ascii -> bool) (s : string) :
  (forall c, p c = true -> q c = true) -> chars_all p s = true -> chars_all q s = true.
Proof.
  intros H. induction s as [|c s IH]; [reflexivity|]. cbn [chars_all].
  rewrite !andb_true_iff. intros [Hc Hs]. auto.
Qed.

Lemma chars_all_remove (cls : ascii -> bool) (s : string) :
  chars_all (fun c => negb (cls c)) (remove_chars cls s) = true.
Proof.
  induction s as [|c s IH]; [reflexivity|]. cbn [remove_chars].
  destruct (cls c) eqn:E; [exact IH|]. cbn [chars_all]. now rewrite E, IH.
Qed.

Lemma chars_all_lstrip (p : ascii -> bool) (s : string) :
  chars_all p s = true -> chars_all p (lstrip s) = true.
Proof.
  induction s as [|c s IH]; [reflexivity|]. cbn [lstrip]. intros H.
  destruct (is_space c); [|exact H]. cbn [chars_all] in H. apply andb_true_iff in H. now apply IH.
Qed.

Lemma chars_all_rstrip (p : ascii -> bool) (s : string) :
  chars_all p s = true -> chars_all p (rstrip s) = true.
Proof.
  induction s as [|c s IH]; [reflexivity|]. cbn [rstrip chars_all]. intros H.
  apply andb_true_iff in H. destruct H as [Hc Hs].
  destruct (is_space c && is_empty (rstrip s)); [reflexivity|].
  cbn [chars_all]. now rewrite Hc, IH.
Qed.

Lemma chars_all_strip (p : ascii -> bool) (s : string) :
  chars_all p s = true -> chars_all p (strip s) = true.
Proof. intros H. now apply chars_all_rstrip, chars_all_lstrip. Qed.

Lemma chars_all_take (p : ascii -> bool) (n : nat) (s : string) :
  chars_all p s = true -> chars_all p (take n s) = true.
Proof.
  revert s. induction n as [|n IH]; intros s H; [reflexivity|].
  destruct s as [|c s]; [reflexivity|]. cbn [take chars_all] in *.
  apply andb_true_iff in H. destruct H as [Hc Hs]. now rewrite Hc, IH.
Qed.

Lemma chars_all_app (p : ascii -> bool) (a b : string) :
  chars_all p (a ++ b) = chars_all p a && chars_all p b.
Proof. induction a as [|c a IH]; [reflexivity|]. cbn. now rewrite IH, andb_assoc. Qed.

Lemma truthy_take (n : nat) (s : string) :
  truthy s = true -> truthy (take (S n) s) = true.
Proof. now destruct s. Qed.

(** X19.  A title never contains a marker character (hash, star or hyphen),
    and it is empty only when nothing is left of the content once markers,
    exclamation marks and surrounding blanks are removed. *)
Theorem title_has_no_marker (section : string) :
  chars_all (fun c => negb (marker c)) (_extract_title_from_section section) = true /\
  (_extract_title_from_section section = EmptyString ->
   strip (remove_chars marker_or_bang section) = EmptyString).
Proof.
  unfold _extract_title_from_section. rewrite title_from_lines_find.
  destruct (find title_line (map strip (split nl section))) as [line|] eqn:Hf;
    cbn [option_map].
  - split.
    + apply chars_all_take, chars_all_strip, chars_all_remove.
    + intros H. exfalso. apply find_some in Hf. destruct Hf as [_ Ht].
      unfold title_line in Ht. apply andb_true_iff in Ht. destruct Ht as [_ Ht].
      apply (truthy_take 79) in Ht. rewrite H in Ht. discriminate.
  - assert (Hclean : chars_all (fun c => negb (marker c))
                       (strip (remove_chars marker_or_bang section)) = true).
    { apply chars_all_strip.
      apply (chars_all_impl (fun c => negb (marker_or_bang c))); [|apply chars_all_remove].
      intros c. unfold marker_or_bang. destruct (marker c); [discriminate | reflexivity]. }
    destruct (50 <? len (strip (remove_chars marker_or_bang section))) eqn:L.
    + split.
      * rewrite chars_all_app, chars_all_take by exact Hclean. reflexivity.
      * intros H. exfalso. apply Z.ltb_lt in L. unfold len in L.
        destruct (strip (remove_chars marker_or_bang section)); [cbn in L; lia | discriminate].
    + split; [exact Hclean | auto].
Qed.

(** ** The merger of markdown text and table slides *)









(** ** The whole workflow: what decides its outcome *)

Lemma combine_body_writes (env : Env) (markdown_content : string)
    (processed_tables : dict TableInfo) (doc : string)
    (raw_ocr_path : option string) (complex_slide_descriptions : dict string) :
  ((forall name text, exists u, write_file env name text = Ok u) ->
   exists r, combine_body env markdown_content processed_tables doc raw_ocr_path
               complex_slide_descriptions = Ok r /\ source_file r = doc) /\
  (forall e, (forall name text, write_file env name text = Raise e) ->
             combine_body env markdown_content processed_tables doc raw_ocr_path
               complex_slide_descriptions = Raise e).
Proof.
  unfold combine_body.
  destruct (build_enhanced_markdown_total markdown_content doc processed_tables
              complex_slide_descriptions) as [md ->].
  cbn [bind]. split.
  - intros Hw.
    match goal with
    | |- context [write_file env ?n ?t] => destruct (Hw n t) as [u ->]
    end.
    cbn [bind]. eexists. split; reflexivity.
  - intros e Hw. now rewrite Hw.
Qed.

(** X21.  With a presentation that can be read, the file system alone
    decides the outcome of the workflow.  When every write succeeds the
    workflow returns the combined result for that file, whatever the
    exporter, the vision service and the downstream pipeline do.  When
    every write raises, it returns no combined result: the error comes back
    as the failure object or as the error object of the merge. *)
Theorem workflow_outcome (env : Env) (prs : list Slide) :
  Presentation env = Ok prs ->
  ((forall name text, exists u, write_file env name text = Ok u) ->
   exists r, process_powerpoint_file env = Ok (Combined r) /\
             source_file r = file_name env) /\
  (forall e, (forall name text, write_file env name text = Raise e) ->
             process_powerpoint_file env = Ok (Failure false (exn_msg e) (exn_type e)) \/
             process_powerpoint_file env = Ok (CombineError (file_name env) (exn_msg e))).
Proof.
  intros Hp. unfold process_powerpoint_file, process_body.
  rewrite (filter_ok env prs Hp). cbn [bind].
  destruct (_separate_slides_by_complexity env (select false 1 prs)) as [[t c] s'].
  unfold _process_csvs_and_combine_results. split.
  - intros Hw.
    destruct (truthy (_process_simple_slides_with_text_extraction env s')).
    + match goal with
      | |- context [write_file env ?n ?x] => destruct (Hw n x) as [u ->]
      end.
      cbn [bind try_except].
      match goal with
      | |- context [combine_body env ?a ?b ?d ?e ?f] =>
          destruct (proj1 (combine_body_writes env a b d e f) Hw) as (r & -> & Hr)
      end.
      now exists r.
    + cbn [bind try_except].
      match goal with
      | |- context [combine_body env ?a ?b ?d ?e ?f] =>
          destruct (proj1 (combine_body_writes env a b d e f) Hw) as (r & -> & Hr)
      end.
      now exists r.
  - intros e Hw.
    destruct (truthy (_process_simple_slides_with_text_extraction env s')).
    + rewrite Hw. cbn [bind try_except]. now left.
    + cbn [bind try_except].
      match goal with
      | |- context [combine_body env ?a ?b ?d ?e ?f] =>
          rewrite (proj2 (combine_body_writes env a b d e f) _ Hw)
      end.
      now right.
Qed.

Lemma workflow_outcome_witness :
  let prs := [[text_box "Title 1" "Roadmap"]; [picture "Picture 4"]] in
  Presentation (sample_env prs) = Ok prs /\
  (forall name text, exists u, write_file (sample_env prs) name text = Ok u) /\
  exists r, process_powerpoint_file (sample_env prs) = Ok (Combined r) /\
            source_file r = file_name (sample_env prs).
Proof.
  cbv zeta.
  assert (H : forall name text,
             exists u, write_file (sample_env [[text_box "Title 1" "Roadmap"];
                                               [picture "Picture 4"]]) name text = Ok u)
    by (intros; now exists tt).
  split; [reflexivity|]. split; [exact H|].
  exact (proj1 (workflow_outcome
                  (sample_env [[text_box "Title 1" "Roadmap"]; [picture "Picture 4"]])
                  [[text_box "Title 1" "Roadmap"]; [picture "Picture 4"]] eq_refl) H).
Defined.

Lemma combine_infos (env : Env) (markdown_content : string)
    (processed_tables : dict TableInfo) (doc : string)
    (raw_ocr_path : option string) (complex_slide_descriptions : dict string)
    (r : CombinedResult) :
  combine_body env markdown_content processed_tables doc raw_ocr_path
    complex_slide_descriptions = Ok r ->
  complex_slides_info r = complex_slide_descriptions /\
  table_slides_info r = processed_tables.
Proof.
  unfold combine_body. intros H.
  destruct (build_enhanced_markdown _ _ _ _); cbn [bind] in H; [|discriminate].
  destruct (write_file env _ _); cbn [bind] in H; [|discriminate].
  injection H as <-. split; reflexivity.
Qed.

(** X22.  A slide removed by the filter is never processed: in a combined
    result, every slide that has a complex description or a table analysis
    is a slide of the presentation whose text contains no skip pattern. *)
Theorem removed_slides_are_never_processed (env : Env) (prs : list Slide)
    (r : CombinedResult) (k : Z) :
  Presentation env = Ok prs ->
  process_powerpoint_file env = Ok (Combined r) ->
  In k (keys (complex_slides_info r)) \/ In k (keys (table_slides_info r)) ->
  exists slide, slide_at prs k = Some slide /\ ~ matches_pattern slide.
Proof.
  intros Hp H Hk. unfold process_powerpoint_file, try_except in H.
  destruct (process_body env) as [r0|e] eqn:Hb; [|discriminate].
  injection H as ->. unfold process_body in Hb.
  rewrite (filter_ok env prs Hp) in Hb. cbn [bind] in Hb.
  destruct (separate_cases env (select false 1 prs)) as (p1 & p2 & p3 & Hsep & _).
  rewrite Hsep in Hb.
  match type of Hb with
  | context [bind ?m _] => destruct m as [raw|e]; cbn [bind] in Hb; [|discriminate]
  end.
  injection Hb as Hb. unfold _process_csvs_and_combine_results in Hb.
  destruct (combine_body _ _ _ _ _ _) as [r1|e] eqn:Hc; [|discriminate].
  injection Hb as ->. destruct (combine_infos _ _ _ _ _ _ _ Hc) as [Hci Hti].
  assert (Hvalid : In k (select false 1 prs)).
  { destruct Hk as [Hk | Hk].
    - rewrite Hci in Hk. apply process_complex_inv in Hk. now apply filter_In in Hk.
    - rewrite Hti in Hk. apply process_table_inv in Hk. now apply filter_In in Hk. }
  apply in_select_slide_at in Hvalid. destruct Hvalid as (slide & Hs & Hskip).
  exists slide. split; [exact Hs|]. rewrite <- skips_spec. congruence.
Qed.

Lemma removed_slides_are_never_processed_witness :
  let prs := [[text_box "Title 1" "Thank You"; picture "Picture 2"];
              [picture "Picture 4"]] in
  exists r,
    Presentation (sample_env prs) = Ok prs /\
    process_powerpoint_file (sample_env prs) = Ok (Combined r) /\
    (In 2 (keys (complex_slides_info r)) \/ In 2 (keys (table_slides_info r))) /\
    exists slide, slide_at prs 2 = Some slide /\ ~ matches_pattern slide.
Proof.
  cbv zeta. eexists. split; [reflexivity|]. split; [reflexivity|].
  assert (H : In 2 (keys [(2, "## deck.pptx:slide-2" ++ nl ++ nl
                              ++ "[Slide 2: Image processing failed and no text content available]")])
              \/ In 2 (@keys TableInfo [])) by (left; left; reflexivity).
  split; [exact H|].
  exact (removed_slides_are_never_processed
           (sample_env [[text_box "Title 1" "Thank You"; picture "Picture 2"];
                        [picture "Picture 4"]])
           [[text_box "Title 1" "Thank You"; picture "Picture 2"]; [picture "Picture 4"]]
           _ 2 eq_refl eq_refl H).
Defined.

(** ** The context of an image reference *)

Lemma rev_string_app (s acc : string) :
  rev_string acc s = rev_string EmptyString s ++ acc.
Proof.
  revert acc. induction s as [|c s IH]; intros acc; [reflexivity|].
  cbn [rev_string]. rewrite (IH (String c acc)), (IH (String c EmptyString)).
  rewrite append_assoc. reflexivity.
Qed.

Lemma newlines_app (a b : string) : newlines (a ++ b) = newlines a + newlines b.
Proof. induction a as [|c a IH]; [reflexivity|]. cbn [append newlines]. rewrite IH. lia. Qed.

Lemma newlines_nonneg (s : string) : 0 <= newlines s.
Proof.
  induction s as [|c s IH]; [cbn; lia|]. cbn [newlines].
  destruct (Ascii.eqb _ c); lia.
Qed.

Lemma newlines_rev (s acc : string) :
  newlines (rev_string acc s) = newlines acc + newlines s.
Proof.
  revert acc. induction s as [|c s IH]; intros acc; [cbn; lia|].
  cbn [rev_string]. rewrite IH. cbn [newlines]. lia.
Qed.

Lemma newlines_lstrip (s : string) : newlines (lstrip s) <= newlines s.
Proof.
  induction s as [|c s IH]; [cbn; lia|]. cbn [lstrip].
  destruct (is_space c); [|lia]. cbn [newlines]. destruct (Ascii.eqb _ c); lia.
Qed.

Lemma newlines_rstrip (s : string) : newlines (rstrip s) <= newlines s.
Proof.
  induction s as [|c s IH]; [cbn; lia|]. cbn [rstrip].
  pose proof (newlines_nonneg s) as Hs.
  destruct (is_space c && is_empty (rstrip s)); cbn [newlines];
    destruct (Ascii.eqb _ c); lia.
Qed.

Lemma newlines_strip (s : string) : newlines (strip s) <= newlines s.
Proof.
  unfold strip. pose proof (newlines_rstrip (lstrip s)). pose proof (newlines_lstrip s). lia.
Qed.

Lemma split_nl_spec (s : string) :
  forall cur, newlines cur = 0 ->
    exists p rest,
      split_aux nl 0 cur s = p :: rest /\
      join nl (p :: rest) = rev_string EmptyString cur ++ s /\
      Forall (fun piece => newlines piece = 0) (p :: rest).
Proof.
  induction s as [|c s IH]; intros cur Hcur.
  - exists (rev_string EmptyString cur), []. cbn [split_aux join].
    rewrite append_nil_r. repeat split.
    constructor; [|constructor]. rewrite newlines_rev. cbn. lia.
  - cbn [split_aux]. unfold nl at 1. cbn [startswith].
    destruct (Ascii.eqb "010" c) eqn:Ec; cbn [andb].
    + replace (startswith EmptyString s) with true by (now destruct s).
      change (String.length nl - 1)%nat with 0%nat.
      destruct (IH EmptyString eq_refl) as (p & rest & E & Hj & Hall).
      rewrite E.
      exists (rev_string EmptyString cur), (p :: rest). split; [reflexivity|]. split.
      * change (join nl (rev_string EmptyString cur :: p :: rest))
          with (rev_string EmptyString cur ++ nl ++ join nl (p :: rest)).
        rewrite Hj. cbn [rev_string append]. apply Ascii.eqb_eq in Ec. now subst c.
      * constructor; [|exact Hall]. rewrite newlines_rev. cbn. lia.
    + destruct (IH (String c cur)) as (p & rest & E & Hj & Hall).
      { cbn [newlines]. rewrite Ec. lia. }
      exists p, rest. split; [exact E|]. split; [|exact Hall].
      rewrite Hj. cbn [rev_string]. rewrite (rev_string_app cur (String c EmptyString)).
      rewrite append_assoc. reflexivity.
Qed.

Lemma join_split_nl (s : string) : join nl (split nl s) = s.
Proof.
  unfold split. destruct (split_nl_spec s EmptyString eq_refl) as (p & rest & E & Hj & _).
  rewrite E, Hj. reflexivity.
Qed.

Lemma split_nl_pieces (s : string) :
  Forall (fun piece => newlines piece = 0) (split nl s).
Proof.
  unfold split. destruct (split_nl_spec s EmptyString eq_refl) as (p & rest & E & _ & H).
  now rewrite E.
Qed.

Lemma join_firstn_skipn (sep : string) (l : list string) :
  forall k, exists mid,
    join sep l = join sep (firstn k l) ++ mid ++ join sep (skipn k l).
Proof.
  induction l as [|p rest IH]; intros k.
  - exists EmptyString. now destruct k.
  - destruct k as [|k].
    + exists EmptyString. reflexivity.
    + cbn [firstn skipn]. destruct (IH k) as (mid & E).
      destruct rest as [|q r].
      * exists EmptyString. destruct k; cbn; now rewrite append_nil_r.
      * change (join sep (p :: q :: r)) with (p ++ sep ++ join sep (q :: r)).
        rewrite E. destruct k as [|k].
        { exists (sep ++ mid). cbn [firstn join append skipn].
          now rewrite !append_assoc. }
        { exists mid. cbn [firstn].
          change (join sep (p :: q :: firstn k r))
            with (p ++ sep ++ join sep (q :: firstn k r)).
          now rewrite !append_assoc. }
Qed.

Lemma newlines_join (l : list string) :
  Forall (fun piece => newlines piece = 0) l ->
  newlines (join nl l) = Z.max 0 (Z.of_nat (List.length l) - 1).
Proof.
  induction l as [|p rest IH]; intros H; [reflexivity|].
  inversion H as [|? ? Hp Hrest]; subst. destruct rest as [|q r].
  - cbn [join List.length]. rewrite Hp. reflexivity.
  - change (join nl (p :: q :: r)) with (p ++ nl ++ join nl (q :: r)).
    rewrite !newlines_app, (IH Hrest), Hp. change (newlines nl) with 1.
    cbn [List.length]. rewrite !Nat2Z.inj_succ. lia.
Qed.

Lemma lstrip_decompose (s : string) :
  exists w, s = w ++ lstrip s /\ blank w = true.
Proof.
  induction s as [|c s (w & E & Hw)]; [now exists EmptyString|].
  cbn [lstrip]. destruct (is_space c) eqn:Ec.
  - exists (String c w). cbn [append]. split; [now rewrite <- E|].
    unfold blank in *. cbn [chars_all]. now rewrite Ec, Hw.
  - now exists EmptyString.
Qed.

Lemma rstrip_decompose (s : string) :
  exists w, s = rstrip s ++ w /\ blank w = true.
Proof.
  induction s as [|c s (w & E & Hw)]; [now exists EmptyString|].
  cbn [rstrip]. destruct (is_space c) eqn:Ec; cbn [andb].
  - destruct (rstrip s) as [|d r] eqn:Er; cbn [is_empty].
    + exists (String c s). split; [reflexivity|]. cbn [append] in E. subst w.
      unfold blank in *. cbn [chars_all]. now rewrite Ec, Hw.
    + exists w. cbn [append] in *. split; [now rewrite <- E | exact Hw].
  - exists w. cbn [append]. split; [now rewrite <- E | exact Hw].
Qed.

Lemma strip_decompose (s : string) :
  exists w1 w2, s = w1 ++ strip s ++ w2 /\ blank w1 = true /\ blank w2 = true.
Proof.
  destruct (lstrip_decompose s) as (w1 & E1 & H1).
  destruct (rstrip_decompose (lstrip s)) as (w2 & E2 & H2).
  exists w1, w2. unfold strip. now rewrite <- E2.
Qed.

Lemma blank_app (a b : string) : blank (a ++ b) = blank a && blank b.
Proof. apply chars_all_app. Qed.

Lemma take_drop (n : nat) (s : string) : take n s ++ drop n s = s.
Proof.
  revert s. induction n as [|n IH]; intros [|c s]; cbn; try reflexivity.
  now rewrite IH.
Qed.

Lemma drop_add (a b : nat) (s : string) : drop (a + b) s = drop b (drop a s).
Proof.
  revert s. induction a as [|a IH]; intros s; [reflexivity|].
  destruct s as [|c s]; cbn [Nat.add drop]; [now destruct b | apply IH].
Qed.

Lemma take_add (a b : nat) (s : string) :
  take (a + b) s = take a s ++ take b (drop a s).
Proof.
  revert s. induction a as [|a IH]; intros s; [reflexivity|].
  destruct s as [|c s]; cbn [Nat.add take drop append]; [now destruct b|].
  now rewrite IH.
Qed.

Lemma startswith_drop (pat t : string) :
  startswith pat t = true -> t = pat ++ drop (String.length pat) t.
Proof.
  revert t. induction pat as [|a pat IH]; intros t H; [reflexivity|].
  destruct t as [|b t]; [discriminate|]. cbn [startswith] in H.
  apply andb_true_iff in H. destruct H as [Hab H]. apply Ascii.eqb_eq in Hab. subst b.
  cbn [String.length drop append]. now rewrite <- (IH t H).
Qed.

Lemma search_spec (pat s : string) :
  forall pos,
    match search pat s pos with
    | None => contains pat s = false
    | Some p =>
        exists n, p = pos + Z.of_nat n /\
                  startswith pat (drop n s) = true /\
                  (n <= String.length s)%nat /\
                  forall q, (q < n)%nat -> startswith pat (drop q s) = false
    end.
Proof.
  induction s as [|c s IH]; intros pos.
  - cbn [search contains]. destruct (startswith pat EmptyString) eqn:E.
    + exists 0%nat. repeat split; [lia | exact E | cbn; lia | intros; lia].
    + reflexivity.
  - cbn [search contains]. destruct (startswith pat (String c s)) eqn:E.
    + exists 0%nat. repeat split; [lia | exact E | cbn; lia | intros; lia].
    + specialize (IH (pos + 1)). destruct (search pat s (pos + 1)) as [p|].
      * destruct IH as (n & -> & Hs & Hle & Hfirst). exists (S n).
        repeat split; [lia | exact Hs | cbn; lia |].
        intros [|q] Hq; [exact E|]. cbn [drop]. apply Hfirst. lia.
      * exact IH.
Qed.

Lemma nest_before (x w1 cb w2 jf mid j w3 c w4 : string) :
  x = w1 ++ cb ++ w2 -> cb = jf ++ mid ++ j -> j = w3 ++ c ++ w4 ->
  x = (w1 ++ jf ++ mid ++ w3) ++ c ++ (w4 ++ w2).
Proof. intros -> -> ->. now rewrite !append_assoc. Qed.

Lemma nest_after (x w1 ca w2 j mid js w3 c w4 : string) :
  x = w1 ++ ca ++ w2 -> ca = j ++ mid ++ js -> j = w3 ++ c ++ w4 ->
  x = (w1 ++ w3) ++ c ++ (w4 ++ mid ++ js ++ w2).
Proof. intros -> -> ->. now rewrite !append_assoc. Qed.

Lemma before_part_spec (x : string) :
  exists lead gap,
    x = lead ++ strip (join nl (last_n 3 (split nl (strip x)))) ++ gap /\
    blank gap = true /\
    (String.length (strip (join nl (last_n 3 (split nl (strip x)))))
     <= String.length x)%nat /\
    newlines (strip (join nl (last_n 3 (split nl (strip x))))) <= 2.
Proof.
  destruct (strip_decompose x) as (w1 & w2 & Ex & H1 & H2).
  set (cb := strip x) in *. unfold last_n.
  set (k := (List.length (split nl cb) - 3)%nat).
  destruct (join_firstn_skipn nl (split nl cb) k) as (mid & Ej).
  rewrite join_split_nl in Ej.
  set (j := join nl (skipn k (split nl cb))) in *.
  destruct (strip_decompose j) as (w3 & w4 & Es & H3 & H4).
  exists (w1 ++ join nl (firstn k (split nl cb)) ++ mid ++ w3), (w4 ++ w2).
  split; [|split; [|split]].
  - exact (nest_before _ _ _ _ _ _ _ _ _ _ Ex Ej Es).
  - now rewrite blank_app, H4, H2.
  - pose proof (length_strip j) as L1.
    assert (L2 : (String.length j <= String.length cb)%nat).
    { pose proof (f_equal String.length Ej) as L. rewrite !length_append in L. lia. }
    pose proof (length_strip x) as L3. fold cb in L3. lia.
  - pose proof (newlines_strip j) as N1.
    assert (N2 : newlines j <= 2).
    { unfold j. rewrite newlines_join.
      - rewrite length_skipn. unfold k. lia.
      - pose proof (split_nl_pieces cb) as Hall.
        rewrite <- (firstn_skipn k (split nl cb)) in Hall.
        now apply Forall_app in Hall. }
    lia.
Qed.

Lemma after_part_spec (x : string) :
  exists gap rest,
    x = gap ++ strip (join nl (firstn 3 (split nl (strip x)))) ++ rest /\
    blank gap = true /\
    (String.length (strip (join nl (firstn 3 (split nl (strip x)))))
     <= String.length x)%nat /\
    newlines (strip (join nl (firstn 3 (split nl (strip x))))) <= 2.
Proof.
  destruct (strip_decompose x) as (w1 & w2 & Ex & H1 & H2).
  set (ca := strip x) in *.
  destruct (join_firstn_skipn nl (split nl ca) 3) as (mid & Ej).
  rewrite join_split_nl in Ej.
  set (j := join nl (firstn 3 (split nl ca))) in *.
  destruct (strip_decompose j) as (w3 & w4 & Es & H3 & H4).
  exists (w1 ++ w3), (w4 ++ mid ++ join nl (skipn 3 (split nl ca)) ++ w2).
  split; [|split; [|split]].
  - exact (nest_after _ _ _ _ _ _ _ _ _ _ Ex Ej Es).
  - now rewrite blank_app, H1, H3.
  - pose proof (length_strip j) as L1.
    assert (L2 : (String.length j <= String.length ca)%nat).
    { pose proof (f_equal String.length Ej) as L. rewrite !length_append in L. lia. }
    pose proof (length_strip x) as L3. fold ca in L3. lia.
  - pose proof (newlines_strip j) as N1.
    assert (N2 : newlines j <= 2).
    { unfold j. rewrite newlines_join.
      - rewrite length_firstn. lia.
      - pose proof (split_nl_pieces ca) as Hall.
        rewrite <- (firstn_skipn 3 (split nl ca)) in Hall.
        now apply Forall_app in Hall. }
    lia.
Qed.

Lemma context_spec (markdown_content img_name : string) :
  (contains (image_ref img_name) markdown_content = false /\
   _extract_context_around_image markdown_content img_name = EmptyString) \/
  exists pos before after,
    first_ref_at markdown_content img_name pos /\
    _extract_context_around_image markdown_content img_name
    = join nl (before ++ after)%list /\
    (before = [] \/
     exists body lead gap,
       before = ["BEFORE: " ++ body] /\ good body /\
       len body <= 500 /\ newlines body <= 2 /\
       take pos markdown_content = lead ++ body ++ gap /\ blank gap = true) /\
    (after = [] \/
     exists body gap rest,
       after = ["AFTER: " ++ body] /\ good body /\
       len body <= 500 /\ newlines body <= 2 /\
       drop (pos + String.length (image_ref img_name)) markdown_content
       = gap ++ body ++ rest /\
       blank gap = true).
Proof.
  unfold _extract_context_around_image. fold (image_ref img_name).
  pose proof (search_spec (image_ref img_name) markdown_content 0) as Hs.
  destruct (search (image_ref img_name) markdown_content 0) as [img_pos|];
    [right | left; split; [exact Hs | reflexivity]].
  destruct Hs as (n & -> & Hstart & Hle & Hfirst). rewrite !Z.add_0_l.
  set (xb := slice (Z.max 0 (Z.of_nat n - 500)) (Z.of_nat n) markdown_content).
  set (xa := slice (Z.of_nat n + len (image_ref img_name))
                   (Z.min (len markdown_content) (Z.of_nat n + 500)) markdown_content).
  destruct (before_part_spec xb) as (lead & gapb & Eb & Hgb & Lb & Nb).
  destruct (after_part_spec xa) as (gapa & rest & Ea & Hga & La & Na).
  set (cleanb := strip (join nl (last_n 3 (split nl (strip xb))))) in *.
  set (cleana := strip (join nl (firstn 3 (split nl (strip xa))))) in *.
  exists n,
    (if truthy (strip xb) then if truthy cleanb then ["BEFORE: " ++ cleanb] else [] else []),
    (if truthy (strip xa) then if truthy cleana then ["AFTER: " ++ cleana] else [] else []).
  split; [repeat split; assumption|]. split; [|split].
  - destruct (truthy (strip xa)), (truthy cleana); rewrite ?app_nil_r; reflexivity.
  - destruct (truthy (strip xb)); [|now left].
    destruct (truthy cleanb) eqn:Et; [right | now left].
    set (a := Z.to_nat (Z.max 0 (Z.of_nat n - 500))).
    assert (Exb : xb = take (n - a) (drop a markdown_content)).
    { unfold xb, slice. fold a. f_equal. unfold a. lia. }
    exists cleanb, (take a markdown_content ++ lead), gapb.
    split; [reflexivity|]. split; [split; [apply strip_idem | exact Et]|].
    split; [|split; [exact Nb|split; [|exact Hgb]]].
    + pose proof (length_take (n - a) (drop a markdown_content)) as L.
      rewrite <- Exb in L. unfold len. unfold a in L. lia.
    + replace n with (a + (n - a))%nat at 1 by (unfold a; lia).
      rewrite take_add, <- Exb, append_assoc. now rewrite <- Eb.
  - destruct (truthy (strip xa)); [|now left].
    destruct (truthy cleana) eqn:Et; [right | now left].
    set (k := Z.to_nat (Z.min (len markdown_content) (Z.of_nat n + 500)
                        - (Z.of_nat n + len (image_ref img_name)))).
    assert (Exa : xa = take k (drop (n + String.length (image_ref img_name))
                                    markdown_content)).
    { unfold xa, slice. fold k. f_equal. f_equal. unfold len. lia. }
    exists cleana, gapa,
      (rest ++ drop k (drop (n + String.length (image_ref img_name)) markdown_content)).
    split; [reflexivity|]. split; [split; [apply strip_idem | exact Et]|].
    split; [|split; [exact Na|split; [|exact Hga]]].
    + pose proof (length_take k (drop (n + String.length (image_ref img_name))
                                      markdown_content)) as L.
      rewrite <- Exa in L. unfold len in *. unfold k in L. lia.
    + rewrite <- (take_drop k (drop (n + String.length (image_ref img_name))
                                    markdown_content)) at 1.
      rewrite <- Exa. rewrite Ea at 1. now rewrite !append_assoc.
Qed.

Lemma search_none (pat s : string) :
  contains pat s = false -> forall pos, search pat s pos = None.
Proof.
  induction s as [|c s IH]; intros H pos; cbn [contains search] in *.
  - rewrite orb_false_r in H. now rewrite H.
  - apply orb_false_iff in H. destruct H as [H1 H2]. rewrite H1. now apply IH.
Qed.

Lemma context_absent (markdown_content img_name : string) :
  contains (image_ref img_name) markdown_content = false ->
  _extract_context_around_image markdown_content img_name = EmptyString.
Proof.
  intros H. unfold _extract_context_around_image. fold (image_ref img_name).
  now rewrite (search_none _ _ H).
Qed.

Lemma len_append (a b : string) : len (a ++ b) = len a + len b.
Proof. unfold len. rewrite length_append. lia. Qed.

(** X23.  The context of an image is short.  It is empty when the markdown
    has no reference to the image; otherwise it has at most 1016 characters
    and at most five line breaks (three lines before the reference and
    three after it), and when it is not empty it starts with one of the
    two tags. *)
Theorem image_context_is_bounded (markdown_content img_name : string) :
  let context_text := _extract_context_around_image markdown_content img_name in
  (contains (image_ref img_name) markdown_content = false ->
   context_text = EmptyString) /\
  len context_text <= 1016 /\
  newlines context_text <= 5 /\
  (context_text = EmptyString \/
   startswith "BEFORE: " context_text = true \/
   startswith "AFTER: " context_text = true).
Proof.
  cbv zeta. split; [apply context_absent|].
  destruct (context_spec markdown_content img_name)
    as [[Hno ->] | (pos & before & after & _ & -> & Hb & Ha)].
  { repeat split; cbn; try lia. now left. }
  destruct Hb as [-> | (b & lead & gapb & -> & _ & Lb & Nb & _)];
    destruct Ha as [-> | (a & gapa & rest & -> & _ & La & Na & _)]; cbn [app join].
  - repeat split; cbn; try lia. now left.
  - rewrite len_append, newlines_app. change (len "AFTER: ") with 7.
    change (newlines "AFTER: ") with 0. repeat split; try lia. right; right. reflexivity.
  - rewrite len_append, newlines_app. change (len "BEFORE: ") with 8.
    change (newlines "BEFORE: ") with 0. repeat split; try lia. right; left. reflexivity.
  - rewrite !len_append, !newlines_app. change (len "BEFORE: ") with 8.
    change (len "AFTER: ") with 7. change (len nl) with 1.
    change (newlines "BEFORE: ") with 0. change (newlines "AFTER: ") with 0.
    change (newlines nl) with 1. repeat split; try lia. right; left. reflexivity.
Qed.

(** X24.  The context of an image is quoted from the markdown, next to the
    first reference to the image.  A non-empty context is one or two tagged
    parts joined by a line break.  The part tagged BEFORE holds a stripped,
    non-empty piece of the text that precedes the first reference, with
    only blanks between the piece and the reference; the part tagged AFTER
    holds such a piece of the text that follows the reference, with only
    blanks between the reference and the piece. *)
Theorem image_context_is_adjacent_text (markdown_content img_name : string) :
  let context_text := _extract_context_around_image markdown_content img_name in
  context_text = EmptyString \/
  exists pos before after,
    first_ref_at markdown_content img_name pos /\
    context_text = join nl (before ++ after)%list /\
    (before = [] \/
     exists body lead gap,
       before = ["BEFORE: " ++ body] /\ good body /\
       take pos markdown_content = lead ++ body ++ gap /\ blank gap = true) /\
    (after = [] \/
     exists body gap rest,
       after = ["AFTER: " ++ body] /\ good body /\
       drop (pos + String.length (image_ref img_name)) markdown_content
       = gap ++ body ++ rest /\
       blank gap = true).
Proof.
  cbv zeta.
  destruct (context_spec markdown_content img_name)
    as [[_ E] | (pos & before & after & Hfirst & E & Hb & Ha)]; [now left | right].
  exists pos, before, after. split; [exact Hfirst|]. split; [exact E|]. split.
  - destruct Hb as [-> | (b & lead & gap & -> & Hg & _ & _ & Et & Hgap)]; [now left|].
    right. now exists b, lead, gap.
  - destruct Ha as [-> | (a & gap & rest & -> & Hg & _ & _ & Ed & Hgap)]; [now left|].
    right. now exists a, gap, rest.
Qed.
